(** * Network Security Threat Detection Dashboard (app.py)

    A shallow embedding of [app.py]: the synthetic traffic generator
    [load_data], the anomaly scorer [detect_anomalies] and the dashboard
    entry point [main], together with the pandas operations they perform on
    the shared table object.

    The numerical libraries the program calls (the NumPy global random
    generator and scikit-learn's isolation forest) are kept abstract: they
    are interfaces whose operations may raise, and the few facts about them
    that a property needs are stated as explicit contracts. *)

From Stdlib Require Import ZArith List Floats Lia.
From stdpp Require Import gmap strings list fin_maps.

Open Scope string_scope.
Open Scope Z_scope.

(** ** Python exceptions and results *)

Inductive exn : Type :=
| KeyError (missing : list string)
| ValueError (msg : string)
| ZeroDivisionError
| LibraryError (msg : string).

Inductive outcome (A : Type) : Type :=
| Returned (a : A)
| Raised (e : exn).
Arguments Returned {A} a.
Arguments Raised {A} e.

(** ** Table cells and pandas data frames *)

Inductive cell : Type :=
| CInt (z : Z)
| CFloat (f : float)
| CStr (s : string)
| CTime (t : Z)
| CMissing.

Abbreviation column := (list cell).

(** A frame has an index of [nrows] positions and named columns. *)
Record DataFrame : Type := mkFrame {
  nrows : nat;
  columns : gmap string column
}.

(** Every column is as long as the index. *)
Definition wf_frame (df : DataFrame) : Prop :=
  ∀ name col, columns df !! name = Some col → length col = nrows df.

(** [df[name]] *)
Definition getitem (df : DataFrame) (name : string) : outcome column :=
  match columns df !! name with
  | Some col => Returned col
  | None => Raised (KeyError [name])
  end.

Definition has_column (df : DataFrame) (name : string) : bool :=
  bool_decide (is_Some (columns df !! name)).

Definition restrict_columns (names : list string) (cols : gmap string column)
  : gmap string column :=
  foldr (λ name acc, match cols !! name with
                     | Some col => <[name := col]> acc
                     | None => acc
                     end) ∅ names.

(** [df[names].copy()]: a new frame holding the selected columns; a missing
    name raises [KeyError]. *)
Definition getitem_list (df : DataFrame) (names : list string) : outcome DataFrame :=
  match List.filter (λ name, negb (has_column df name)) names with
  | [] => Returned (mkFrame (nrows df) (restrict_columns names (columns df)))
  | missing => Raised (KeyError missing)
  end.

(** [df[name] = values] with an array on the right-hand side.  A frame whose
    index is empty takes the index of a non-empty value and fills its other
    columns with missing cells; otherwise the lengths must agree. *)
Definition setitem (df : DataFrame) (name : string) (values : column)
  : outcome DataFrame :=
  if decide (nrows df = 0%nat ∧ values ≠ []) then
    Returned (mkFrame (length values)
                (<[name := values]>
                   ((λ _, replicate (length values) CMissing) <$> columns df)))
  else if decide (length values = nrows df) then
    Returned (mkFrame (nrows df) (<[name := values]> (columns df)))
  else Raised (ValueError "Length of values does not match length of index").

(** [pd.DataFrame({name: array, ...})] *)
Definition pd_DataFrame (cols : list (string * column)) : outcome DataFrame :=
  match cols with
  | [] => Returned (mkFrame 0 ∅)
  | (_, first) :: _ =>
      if forallb (λ p, Nat.eqb (length p.2) (length first)) cols
      then Returned (mkFrame (length first) (list_to_map cols))
      else Raised (ValueError "All arrays must be of the same length")
  end.

(** Times are counted in microseconds. *)
Definition minute : Z := 60000000.

(** [n] times one minute apart, from [now] on. *)
Definition timestamps_from (now : Z) (n : nat) : list Z :=
  map (λ i, now + Z.of_nat i * minute) (seq 0 n).

(** [pd.date_range(start=start, periods=periods, freq='T')]: [periods]
    times one minute apart, none when [periods] is not positive. *)
Definition pd_date_range (start periods : Z) : list Z :=
  timestamps_from start (Z.to_nat periods).

(** [column == -1] *)
Definition eq_minus_one (c : cell) : bool :=
  match c with
  | CInt z => z =? -1
  | CFloat f => (f =? -1)%float
  | _ => false
  end.

(** Selection of the positions where the mask holds. *)
Fixpoint boolean_mask {A : Type} (mask : list bool) (xs : list A) : list A :=
  match mask, xs with
  | b :: mask', x :: xs' =>
      if b then x :: boolean_mask mask' xs' else boolean_mask mask' xs'
  | _, _ => []
  end.

(** [df[mask]]: a new frame with the selected rows, in their order. *)
Definition getitem_mask (df : DataFrame) (mask : list bool) : DataFrame :=
  mkFrame (length (boolean_mask mask (seq 0 (nrows df))))
          (boolean_mask mask <$> columns df).

(** The frame without one of its columns. *)
Definition drop_column (name : string) (df : DataFrame) : DataFrame :=
  mkFrame (nrows df) (delete name (columns df)).

(** ** Conversion of floats to 64-bit integers ([.astype(int)]) *)

Definition int64_min : Z := - 2 ^ 63.
Definition int64_max : Z := 2 ^ 63 - 1.

(** The integer part of a finite float (rounding toward zero). *)
Definition trunc_float (x : float) : option Z :=
  match Prim2SF x with
  | S754_zero _ => Some 0
  | S754_finite s m e =>
      let a := if 0 <=? e then Z.pos m * 2 ^ e else Z.pos m / 2 ^ (- e) in
      Some (if s then - a else a)
  | _ => None
  end.

Definition fits_int64 (x : float) : bool :=
  match trunc_float x with
  | Some z => (int64_min <=? z) && (z <=? int64_max)
  | None => false
  end.

(** ** The libraries behind the program *)

(** NumPy's process-wide random generator, as a state-passing interface.
    [cast_invalid] is what the platform stores when a float that has no
    64-bit integer counterpart is cast to an integer. *)
Record NumpyRandom : Type := {
  rng : Type;
  np_seed : Z → rng;
  np_choice : ∀ A : Type, list A → Z → rng → outcome (list A) * rng;
  np_lognormal : float → float → Z → rng → outcome (list float) * rng;
  np_poisson : Z → Z → rng → outcome (list Z) * rng;
  cast_invalid : float → Z
}.

(** The constructor arguments of [IsolationForest]. *)
Record IsolationForest : Type := {
  n_estimators : Z;
  contamination : float;
  random_state : Z;
  n_jobs : Z
}.

(** scikit-learn's estimator.  Both operations receive the number of
    processing units of the machine, which [n_jobs = -1] asks them to use. *)
Record Sklearn : Type := {
  fitted : Type;
  fit_predict : IsolationForest → nat → DataFrame → outcome (fitted * list Z);
  decision_function : fitted → nat → DataFrame → outcome (list float)
}.

(** ** What the dashboard shows *)

Inductive figure : Type :=
| ScatterFigure (df : DataFrame) (x y color size : string)
                (hover_data : list string) (title : string)
| LineFigure (df : DataFrame) (x y : string) (title : string)
             (hover_data : list string).

Inductive styler : Type :=
| StyleFormat (df : DataFrame) (formats : list (string * string))
| StyleHighlightMax (df : DataFrame) (subset : list string) (color : string).

(** A metric shows a count, or the quotient [num / den * 100] printed with
    one decimal and a percent sign. *)
Inductive metric_value : Type :=
| MetricCount (n : nat)
| MetricPercent (num den : nat).

Inductive ui_event : Type :=
| EvTitle (text : string)
| EvSidebarHeader (text : string)
| EvSidebarSlider (label : string)
| EvSidebarButton (label : string)
| EvTabs (labels : list string)
| EvTab (label : string)
| EvSubheader (text : string)
| EvColumns (n : nat)
| EvMetric (label : string) (value : metric_value)
| EvPlotlyChart (fig : figure)
| EvDataframe (s : styler)
| EvSidebarSuccess (text : string)
| EvSidebarLastUpdated (time : Z)
| EvError (prefix : string) (e : exn).

(** The values the sidebar widgets hold when the script runs. *)
Record controls : Type := {
  sample_size : Z;
  contamination_level : float;
  refresh : bool
}.

(** Plotly raises when a figure names a column the frame does not have. *)
Definition px_columns_ok (df : DataFrame) (names : list string) : bool :=
  forallb (has_column df) names.

Definition px_scatter (df : DataFrame) (x y color size : string)
    (hover_data : list string) (title : string) : outcome figure :=
  if px_columns_ok df ([x; y; color; size] ++ hover_data)
  then Returned (ScatterFigure df x y color size hover_data title)
  else Raised (ValueError "Value is not the name of a column in 'data_frame'").

Definition px_line (df : DataFrame) (x y : string) (title : string)
    (hover_data : list string) : outcome figure :=
  if px_columns_ok df ([x; y] ++ hover_data)
  then Returned (LineFigure df x y title hover_data)
  else Raised (ValueError "Value is not the name of a column in 'data_frame'").

Abbreviation loc := positive.

Definition features : list string :=
  ["Bytes_Sent"; "Bytes_Received"; "Request_Count"].

Definition ip_pool : list string :=
  ["192.168.1.1"; "192.168.1.2"; "192.168.1.3"; "192.168.1.4"].

Definition port_pool : list Z := [80; 443; 22; 3389].

Section Dashboard.

Context (np : NumpyRandom) (sk : Sklearn).

(** [x.astype(int)] *)
Definition astype_int (x : float) : Z :=
  match trunc_float x with
  | Some z => if fits_int64 x then z else cast_invalid np x
  | None => cast_invalid np x
  end.

(** What [st.cache_data] keeps for one argument value: the pickled result
    and the messages the function displayed while it ran. *)
Abbreviation cache_entry := (option DataFrame * list ui_event)%type.

(** The state of the running process: the objects tables live in, what has
    been displayed, the global random generator, the data cache, the wall
    clock and the number of processing units. *)
Record world : Type := mkWorld {
  heap : gmap loc DataFrame;
  screen : list ui_event;
  np_state : rng np;
  data_cache : gmap Z cache_entry;
  clock : Z;
  cpu_count : nat
}.

Definition set_heap (h : gmap loc DataFrame) (w : world) : world :=
  mkWorld h (screen w) (np_state w) (data_cache w) (clock w) (cpu_count w).
Definition set_screen (s : list ui_event) (w : world) : world :=
  mkWorld (heap w) s (np_state w) (data_cache w) (clock w) (cpu_count w).
Definition set_np_state (g : rng np) (w : world) : world :=
  mkWorld (heap w) (screen w) g (data_cache w) (clock w) (cpu_count w).
Definition set_data_cache (c : gmap Z cache_entry) (w : world) : world :=
  mkWorld (heap w) (screen w) (np_state w) c (clock w) (cpu_count w).

(** Computations that read and change the process state and may raise.
    The state reached when an exception is raised is kept: Python does not
    undo the effects of a [try] block. *)
Definition M (A : Type) : Type := world → outcome A * world.

Definition ret {A : Type} (a : A) : M A := λ w, (Returned a, w).

Definition bind {A B : Type} (m : M A) (k : A → M B) : M B :=
  λ w, match m w with
       | (Returned a, w') => k a w'
       | (Raised e, w') => (Raised e, w')
       end.

Definition try_except {A : Type} (body : M A) (handler : exn → M A) : M A :=
  λ w, match body w with
       | (Returned a, w') => (Returned a, w')
       | (Raised e, w') => handler e w'
       end.

Definition lift {A : Type} (o : outcome A) : M A := λ w, (o, w).

Definition show (ev : ui_event) : M unit :=
  λ w, (Returned tt, set_screen (screen w ++ [ev]) w).

Definition st_error (prefix : string) (e : exn) : M unit :=
  show (EvError prefix e).

(** [datetime.now()].  The clock is advanced by the environment between
    runs of the script, not by the script. *)
Definition datetime_now : M Z := λ w, (Returned (clock w), w).

Definition with_rng {A : Type} (draw : rng np → outcome A * rng np) : M A :=
  λ w, let '(r, g) := draw (np_state w) in (r, set_np_state g w).

Definition np_random_seed (s : Z) : M unit :=
  λ w, (Returned tt, set_np_state (np_seed np s) w).

(** The number of processing units [n_jobs = -1] stands for. *)
Definition os_cpu_count : M nat := λ w, (Returned (cpu_count w), w).

(** A new object holding [df]. *)
Definition alloc (df : DataFrame) : M loc :=
  λ w, let l := fresh (dom (heap w)) in
       (Returned l, set_heap (<[l := df]> (heap w)) w).

Definition deref (l : loc) : M DataFrame :=
  λ w, match heap w !! l with
       | Some df => (Returned df, w)
       | None => (Raised (LibraryError "no such object"), w)
       end.

(** [data[name] = values] on the object [l]. *)
Definition setitem_at (l : loc) (name : string) (values : column) : M unit :=
  λ w, match heap w !! l with
       | Some df =>
           match setitem df name values with
           | Returned df' => (Returned tt, set_heap (<[l := df']> (heap w)) w)
           | Raised e => (Raised e, w)
           end
       | None => (Raised (LibraryError "no such object"), w)
       end.

Notation "x <- m ;; k" := (bind m (λ x, k))
  (at level 100, m at next level, right associativity).
Notation "m ;;; k" := (bind m (λ _, k))
  (at level 100, right associativity).

(** *** Data loading with caching *)

(** The [try] block of [load_data] ([samples] defaults to 100; [main]
    always passes it). *)
Definition load_data_try (samples : Z) : M (option DataFrame) :=
  np_random_seed 42 ;;;
  now <- datetime_now ;;
  timestamp <- ret (pd_date_range now samples) ;;
  ip_address <- with_rng (np_choice np string ip_pool samples) ;;
  bytes_sent <- with_rng (np_lognormal np 5 1 samples) ;;
  bytes_received <- with_rng (np_lognormal np 5 1 samples) ;;
  request_count <- with_rng (np_poisson np 25 samples) ;;
  port <- with_rng (np_choice np Z port_pool samples) ;;
  data <- lift (pd_DataFrame
    [("Timestamp", CTime <$> timestamp);
     ("IP_Address", CStr <$> ip_address);
     ("Bytes_Sent", (λ x, CInt (astype_int x)) <$> bytes_sent);
     ("Bytes_Received", (λ x, CInt (astype_int x)) <$> bytes_received);
     ("Request_Count", CInt <$> request_count);
     ("Port", CInt <$> port)]) ;;
  ret (Some data).

(** The body of [load_data]: the table it builds, or [None] after
    displaying the error that stopped it. *)
Definition load_data_body (samples : Z) : M (option DataFrame) :=
  try_except (load_data_try samples)
    (λ e, st_error "Error loading data: " e ;;; ret None).

(** [@st.cache_data]: the first call with an argument runs the function and
    keeps its result and the messages it displayed; later calls with that
    argument display the messages again and return the kept result.  Every
    call hands out an object of its own. *)
Definition st_cache_data (f : Z → M (option DataFrame)) (arg : Z)
  : M (option loc) :=
  λ w, match data_cache w !! arg with
       | Some (value, messages) =>
           let w1 := set_screen (screen w ++ messages) w in
           match value with
           | Some df => (l <- alloc df ;; ret (Some l)) w1
           | None => (Returned None, w1)
           end
       | None =>
           match f arg (set_screen [] w) with
           | (Returned value, w1) =>
               let w2 := set_data_cache (<[arg := (value, screen w1)]> (data_cache w1))
                           (set_screen (screen w ++ screen w1) w1) in
               match value with
               | Some df => (l <- alloc df ;; ret (Some l)) w2
               | None => (Returned None, w2)
               end
           | (Raised e, w1) => (Raised e, set_screen (screen w ++ screen w1) w1)
           end
       end.

Definition load_data (samples : Z) : M (option loc) :=
  st_cache_data load_data_body samples.

(** *** Anomaly detection *)

Definition label_column (scores : list Z) : column := CInt <$> scores.
Definition confidence_column (scores : list float) : column := CFloat <$> scores.

(** The [try] block of [detect_anomalies]. *)
Definition detect_anomalies_try (data : loc) (contamination : float) : M loc :=
  let model := {| n_estimators := 100; contamination := contamination;
                  random_state := 42; n_jobs := -1 |} in
  df <- deref data ;;
  scaled_data <- lift (getitem_list df features) ;;
  cpus <- os_cpu_count ;;
  fit <- lift (fit_predict sk model cpus scaled_data) ;;
  setitem_at data "Anomaly_Score" (label_column fit.2) ;;;
  confidence <- lift (decision_function sk fit.1 cpus scaled_data) ;;
  setitem_at data "Confidence" (confidence_column confidence) ;;;
  ret data.

Definition detect_anomalies (data : loc) (contamination : float) : M loc :=
  try_except (detect_anomalies_try data contamination)
    (λ e, st_error "Error in anomaly detection: " e ;;; ret data).

(** *** Visualization *)

Definition create_visualizations (data : loc) (anomalies : DataFrame) : M unit :=
  show (EvColumns 2) ;;;
  df <- deref data ;;
  fig1 <- lift (px_scatter df "Bytes_Sent" "Bytes_Received" "Anomaly_Score"
                  "Request_Count" ["IP_Address"; "Port"; "Timestamp"]
                  "Traffic Pattern Analysis") ;;
  show (EvPlotlyChart fig1) ;;;
  fig2 <- lift (px_line anomalies "Timestamp" "Bytes_Sent"
                  "Anomalous Traffic Over Time" ["IP_Address"; "Port"]) ;;
  show (EvPlotlyChart fig2).

(** *** Main dashboard *)

Definition anomaly_rate (anomalies total : nat) : outcome metric_value :=
  if decide (total = 0%nat) then Raised ZeroDivisionError
  else Returned (MetricPercent anomalies total).

(** What [main] does once it holds a table. *)
Definition main_with_data (ctl : controls) (data : loc) : M unit :=
  analyzed_data <- detect_anomalies data (contamination_level ctl) ;;
  analyzed <- deref analyzed_data ;;
  score <- lift (getitem analyzed "Anomaly_Score") ;;
  let anomalies := getitem_mask analyzed (eq_minus_one <$> score) in
  show (EvTabs ["Overview"; "Raw Data"; "Anomalies"]) ;;;
  show (EvTab "Overview") ;;;
  show (EvSubheader "Dashboard Overview") ;;;
  show (EvColumns 3) ;;;
  raw <- deref data ;;
  show (EvMetric "Total Packets" (MetricCount (nrows raw))) ;;;
  show (EvMetric "Anomalies Detected" (MetricCount (nrows anomalies))) ;;;
  rate <- lift (anomaly_rate (nrows anomalies) (nrows raw)) ;;
  show (EvMetric "Anomaly Rate" rate) ;;;
  create_visualizations analyzed_data anomalies ;;;
  show (EvTab "Raw Data") ;;;
  show (EvSubheader "Raw Network Traffic Data") ;;;
  raw <- deref data ;;
  show (EvDataframe (StyleFormat raw
          [("Bytes_Sent", "{:,.0f}"); ("Bytes_Received", "{:,.0f}");
           ("Timestamp", "{:%Y-%m-%d %H:%M:%S}")])) ;;;
  show (EvTab "Anomalies") ;;;
  show (EvSubheader "Detailed Anomaly Report") ;;;
  show (EvDataframe (StyleHighlightMax anomalies features "red")) ;;;
  show (EvSidebarSuccess "Monitoring Active") ;;;
  now <- datetime_now ;;
  show (EvSidebarLastUpdated now).

(** What [main] displays before it loads the data. *)
Definition main_header : list ui_event :=
  [EvTitle "Network Security Threat Detection Dashboard";
   EvSidebarHeader "Settings";
   EvSidebarSlider "Sample Size";
   EvSidebarSlider "Contamination Level";
   EvSidebarButton "Refresh Data"].

Definition main (ctl : controls) : M unit :=
  show (EvTitle "Network Security Threat Detection Dashboard") ;;;
  show (EvSidebarHeader "Settings") ;;;
  show (EvSidebarSlider "Sample Size") ;;;
  show (EvSidebarSlider "Contamination Level") ;;;
  show (EvSidebarButton "Refresh Data") ;;;
  loaded <- load_data (sample_size ctl) ;;
  match loaded with
  | None => ret tt
  | Some data => main_with_data ctl data
  end.

(** The guarded block at the end of the script. *)
Definition run_script (ctl : controls) : M unit :=
  try_except (main ctl) (λ e, st_error "An unexpected error occurred: " e).

End Dashboard.

Arguments heap {np} w.
Arguments screen {np} w.
Arguments np_state {np} w.
Arguments data_cache {np} w.
Arguments clock {np} w.
Arguments cpu_count {np} w.
Arguments mkWorld {np} _ _ _ _ _ _.
Arguments set_heap {np} h w.
Arguments set_screen {np} s w.
Arguments set_np_state {np} g w.
Arguments set_data_cache {np} c w.

(** ** Contracts of the libraries *)

(** What NumPy documents about the draws the program asks for, memory
    permitting: a request for [n >= 0] values succeeds with [n] values;
    choices come from the pool; log-normal values of mean 5 and sigma 1 are
    positive (and small enough to have a 64-bit integer part); Poisson
    counts are not negative. *)
Record NumpyContract (np : NumpyRandom) : Prop := {
  choice_draws : ∀ (A : Type) (pool : list A) (n : Z) (g : rng np),
    pool ≠ [] → 0 ≤ n →
    ∃ xs g', np_choice np A pool n g = (Returned xs, g')
             ∧ length xs = Z.to_nat n ∧ Forall (λ x, In x pool) xs;
  lognormal_draws : ∀ (n : Z) (g : rng np),
    0 ≤ n →
    ∃ xs g', np_lognormal np 5 1 n g = (Returned xs, g')
             ∧ length xs = Z.to_nat n
             ∧ Forall (λ x, (0 <? x)%float = true ∧ fits_int64 x = true) xs;
  poisson_draws : ∀ (n : Z) (g : rng np),
    0 ≤ n →
    ∃ xs g', np_poisson np 25 n g = (Returned xs, g')
             ∧ length xs = Z.to_nat n ∧ Forall (λ k, 0 ≤ k) xs
}.

(** The label scikit-learn derives from a decision score. *)
Definition label_of_score (d : float) : Z :=
  if (d <? 0)%float then -1 else 1.

(** The estimator returns one label and one score per row. *)
Record SklearnShapes (sk : Sklearn) : Prop := {
  labels_shape : ∀ p k X m ls,
    fit_predict sk p k X = Returned (m, ls) → length ls = nrows X;
  scores_shape : ∀ m k X ds,
    decision_function sk m k X = Returned ds → length ds = nrows X
}.

(** The labels of [fit_predict] are the signs of the decision scores of the
    fitted model on the same data, and the scores are numbers. *)
Record SklearnSign (sk : Sklearn) : Prop := {
  labels_follow_scores : ∀ p k X m ls ds,
    fit_predict sk p k X = Returned (m, ls) →
    decision_function sk m k X = Returned ds →
    ls = label_of_score <$> ds;
  scores_not_nan : ∀ m k X ds,
    decision_function sk m k X = Returned ds →
    Forall (λ d, (d =? d)%float = true) ds
}.


(** ** Auxiliary notions for the statements *)

(** Every cached entry is what some run of the function body returned and
    displayed. *)
Definition cache_sound (np : NumpyRandom) (w : world np) : Prop :=
  ∀ n value messages, data_cache w !! n = Some (value, messages) →
    ∃ w0 w0', load_data_body np n w0 = (Returned value, w0')
              ∧ screen w0 = [] ∧ screen w0' = messages.

(** The arguments [detect_anomalies] builds its model with. *)
Definition model_of (c : float) : IsolationForest :=
  {| n_estimators := 100; contamination := c; random_state := 42; n_jobs := -1 |}.

(** Scoring stops before the label column is written: the object is gone,
    a feature column is missing, the fit fails, or the labels do not fit the
    table. *)
Inductive fails_before_labels (np : NumpyRandom) (sk : Sklearn)
    (data : loc) (c : float) (w : world np) : exn → Prop :=
| fails_no_object :
    heap w !! data = None →
    fails_before_labels np sk data c w (LibraryError "no such object")
| fails_select (df : DataFrame) (e : exn) :
    heap w !! data = Some df →
    getitem_list df features = Raised e →
    fails_before_labels np sk data c w e
| fails_fit (df X : DataFrame) (e : exn) :
    heap w !! data = Some df →
    getitem_list df features = Returned X →
    fit_predict sk (model_of c) (cpu_count w) X = Raised e →
    fails_before_labels np sk data c w e
| fails_assign (df X : DataFrame) (fit : fitted sk * list Z) (e : exn) :
    heap w !! data = Some df →
    getitem_list df features = Returned X →
    fit_predict sk (model_of c) (cpu_count w) X = Returned fit →
    setitem df "Anomaly_Score" (label_column fit.2) = Raised e →
    fails_before_labels np sk data c w e.

(** Given a table with rows, integer feature columns and a contamination
    in (0, 0.5], the estimator fits, memory permitting; and a fitted model
    scores the data it was fitted on. *)
Record SklearnFits (sk : Sklearn) : Prop := {
  fit_succeeds : ∀ c k X,
    (0 <? c)%float = true → (c <=? 0.5)%float = true →
    (0 < nrows X)%nat →
    (∀ name, name ∈ features →
       ∃ zs, columns X !! name = Some (CInt <$> zs) ∧ length zs = nrows X) →
    ∃ m ls, fit_predict sk (model_of c) k X = Returned (m, ls);
  score_succeeds : ∀ p k X m ls,
    fit_predict sk p k X = Returned (m, ls) →
    ∃ ds, decision_function sk m k X = Returned ds
}.

(** ** A small concrete instance of the libraries

    A counter-based generator and a threshold estimator, used to run the
    program on concrete inputs. *)
Module Demo.

Definition draws {A : Type} (f : nat → A) (n : Z) (g : nat)
  : outcome (list A) * nat :=
  if n <? 0 then (Raised (ValueError "negative dimensions are not allowed"), g)
  else (Returned (f <$> seq g (Z.to_nat n)), (g + Z.to_nat n)%nat).

Definition choice (A : Type) (pool : list A) (n : Z) (g : nat)
  : outcome (list A) * nat :=
  match pool with
  | [] => (Raised (ValueError "a must be non-empty"), g)
  | d :: _ => draws (λ i, nth (i mod length pool) pool d) n g
  end.

Definition lognormal_value (i : nat) : float :=
  match (i mod 4)%nat with
  | 0%nat => 148.5
  | 1%nat => 54.25
  | 2%nat => 403
  | _ => 20.75
  end%float.

Definition lognormal (mean sigma : float) (n : Z) (g : nat)
  : outcome (list float) * nat :=
  if (sigma <? 0)%float then (Raised (ValueError "sigma < 0"), g)
  else draws lognormal_value n g.

Definition poisson (lam n : Z) (g : nat) : outcome (list Z) * nat :=
  if lam <? 0 then (Raised (ValueError "lam < 0"), g)
  else draws (λ i, Z.max 0 (lam - 5 + Z.of_nat (i mod 11))) n g.

Definition numpy : NumpyRandom := {|
  rng := nat;
  np_seed := Z.to_nat;
  np_choice := choice;
  np_lognormal := lognormal;
  np_poisson := poisson;
  cast_invalid := λ _, int64_min
|}.

(** The score of a row: negative when its request count exceeds 27. *)
Definition score_of (c : cell) : float :=
  match c with
  | CInt z => if 27 <? z then (-0.125)%float else 0.25%float
  | _ => 0.25%float
  end.

Definition scores (X : DataFrame) : outcome (list float) :=
  match getitem X "Request_Count" with
  | Returned col =>
      if decide (length col = nrows X) then Returned (score_of <$> col)
      else Raised (ValueError "ragged input")
  | Raised e => Raised e
  end.

Definition sklearn : Sklearn := {|
  fitted := unit;
  fit_predict := λ _ _ X,
    match scores X with
    | Returned ds => Returned (tt, label_of_score <$> ds)
    | Raised e => Raised e
    end;
  decision_function := λ _ _ X, scores X
|}.


(** A process that has just started: no objects, nothing displayed, an
    empty cache. *)
Definition fresh_world (now : Z) (cpus : nat) : world numpy :=
  @mkWorld numpy ∅ [] 0%nat ∅ now cpus.

(** A table of three records. *)
Definition three_rows : DataFrame :=
  mkFrame 3 (list_to_map
    [("Timestamp", [CTime 0; CTime 60000000; CTime 120000000]);
     ("IP_Address", [CStr "192.168.1.1"; CStr "192.168.1.2"; CStr "192.168.1.1"]);
     ("Bytes_Sent", [CInt 148; CInt 54; CInt 403]);
     ("Bytes_Received", [CInt 20; CInt 148; CInt 54]);
     ("Request_Count", [CInt 24; CInt 31; CInt 22]);
     ("Port", [CInt 80; CInt 443; CInt 22])]).

(** The same table without its [Request_Count] column. *)
Definition without_request_count : DataFrame :=
  drop_column "Request_Count" three_rows.

(** A world whose object [1] is that table. *)
Definition world_with (df : DataFrame) : world numpy :=
  @mkWorld numpy {[ 1%positive := df ]} [] 0%nat ∅ 0 4.

Definition default_controls : controls :=
  {| sample_size := 100; contamination_level := 0.125; refresh := false |}.

(** The same estimator on a machine that runs out of memory while
    fitting. *)
Definition sklearn_cannot_fit : Sklearn := {|
  fitted := unit;
  fit_predict := λ _ _ _, Raised (LibraryError "MemoryError");
  decision_function := decision_function sklearn
|}.

(** The table of three records as the threshold estimator scores it. *)
Definition scored_rows : DataFrame :=
  mkFrame 3
    (<["Confidence" := [CFloat 0.25; CFloat (-0.125); CFloat 0.25]]>
       (<["Anomaly_Score" := [CInt 1; CInt (-1); CInt 1]]> (columns three_rows))).

End Demo.

(** ** The generator as a function of the clock and the sample count *)

(** A world in which [load_data_try] is run to read off what it builds. *)
Definition probe_world (np : NumpyRandom) (now : Z) : world np :=
  mkWorld ∅ [] (np_seed np 0) ∅ now 0.

Definition generated (np : NumpyRandom) (now samples : Z)
  : outcome (option DataFrame) :=
  (load_data_try np samples (probe_world np now)).1.

Definition generated_state (np : NumpyRandom) (now samples : Z) : rng np :=
  np_state (load_data_try np samples (probe_world np now)).2.

(** A table of [n] traffic records: the six base columns, each of [n]
    cells, with addresses and ports from the pools and counts that are not
    negative. *)
Definition traffic_table (n : nat) (df : DataFrame) : Prop :=
  nrows df = n
  ∧ ∃ (ts : list Z) (ips : list string) (sent recv reqs ports : list Z),
      columns df = list_to_map
        [("Timestamp", CTime <$> ts); ("IP_Address", CStr <$> ips);
         ("Bytes_Sent", CInt <$> sent); ("Bytes_Received", CInt <$> recv);
         ("Request_Count", CInt <$> reqs); ("Port", CInt <$> ports)]
      ∧ length ts = n ∧ length ips = n ∧ length sent = n
      ∧ length recv = n ∧ length reqs = n ∧ length ports = n
      ∧ Forall (λ ip, In ip ip_pool) ips
      ∧ Forall (λ b, 0 ≤ b) sent
      ∧ Forall (λ b, 0 ≤ b) recv
      ∧ Forall (λ k, 0 ≤ k) reqs
      ∧ Forall (λ p, In p port_pool) ports.

(** ** What the dashboard displays once it holds a table *)

(** The columns the two charts of [create_visualizations] name. *)
Definition scatter_columns : list string :=
  ["Bytes_Sent"; "Bytes_Received"; "Anomaly_Score"; "Request_Count";
   "IP_Address"; "Port"; "Timestamp"].

Definition line_columns : list string :=
  ["Timestamp"; "Bytes_Sent"; "IP_Address"; "Port"].

Definition scatter_chart (analyzed : DataFrame) : figure :=
  ScatterFigure analyzed "Bytes_Sent" "Bytes_Received" "Anomaly_Score"
    "Request_Count" ["IP_Address"; "Port"; "Timestamp"]
    "Traffic Pattern Analysis".

Definition line_chart (anomalies : DataFrame) : figure :=
  LineFigure anomalies "Timestamp" "Bytes_Sent" "Anomalous Traffic Over Time"
    ["IP_Address"; "Port"].

(** What [main] displays from the tabs to the second metric. *)
Definition overview_counts (analyzed anomalies : DataFrame) : list ui_event :=
  [EvTabs ["Overview"; "Raw Data"; "Anomalies"];
   EvTab "Overview";
   EvSubheader "Dashboard Overview";
   EvColumns 3;
   EvMetric "Total Packets" (MetricCount (nrows analyzed));
   EvMetric "Anomalies Detected" (MetricCount (nrows anomalies))].

(** What [main] displays after it has scored the table, when nothing
    stops it. *)
Definition dashboard (analyzed anomalies : DataFrame) (now : Z) : list ui_event :=
  overview_counts analyzed anomalies ++
  [EvMetric "Anomaly Rate" (MetricPercent (nrows anomalies) (nrows analyzed));
   EvColumns 2;
   EvPlotlyChart (scatter_chart analyzed);
   EvPlotlyChart (line_chart anomalies);
   EvTab "Raw Data";
   EvSubheader "Raw Network Traffic Data";
   EvDataframe (StyleFormat analyzed
     [("Bytes_Sent", "{:,.0f}"); ("Bytes_Received", "{:,.0f}");
      ("Timestamp", "{:%Y-%m-%d %H:%M:%S}")]);
   EvTab "Anomalies";
   EvSubheader "Detailed Anomaly Report";
   EvDataframe (StyleHighlightMax anomalies features "red");
   EvSidebarSuccess "Monitoring Active";
   EvSidebarLastUpdated now].

(** The columns [load_data] gives its table. *)
Definition base_columns : list string :=
  ["Timestamp"; "IP_Address"; "Bytes_Sent"; "Bytes_Received"; "Request_Count";
   "Port"].

(** * Properties *)

(** ** Floats *)

Lemma Prim2SF_zero : Prim2SF 0%float = S754_zero false.
Proof. reflexivity. Qed.

Lemma float_positive_inv (x : float) :
  (0 <? x)%float = true →
  Prim2SF x = S754_infinity false ∨ ∃ m e, Prim2SF x = S754_finite false m e.
Proof.
  rewrite FloatAxioms.ltb_spec, Prim2SF_zero. unfold SFltb, SFcompare.
  destruct (Prim2SF x) as [s|s| |s m e]; try discriminate.
  - destruct s; [discriminate | auto].
  - destruct s; [discriminate | eauto].
Qed.

Lemma trunc_float_positive (x : float) (z : Z) :
  (0 <? x)%float = true → trunc_float x = Some z → 0 ≤ z.
Proof.
  intros Hpos. unfold trunc_float.
  destruct (float_positive_inv x Hpos) as [-> | (m & e & ->)]; [discriminate |].
  intros [= <-]. destruct (0 <=? e) eqn:He.
  - apply Z.mul_nonneg_nonneg; [lia | apply Z.pow_nonneg; lia].
  - apply Z.div_pos; [lia | apply Z.pow_pos_nonneg; lia].
Qed.

Lemma astype_int_nonneg (np : NumpyRandom) (x : float) :
  (0 <? x)%float = true → fits_int64 x = true → 0 ≤ astype_int np x.
Proof.
  intros Hpos Hfit. unfold astype_int. rewrite Hfit.
  destruct (trunc_float x) as [z|] eqn:Hz.
  - eapply trunc_float_positive; eauto.
  - unfold fits_int64 in Hfit. rewrite Hz in Hfit. discriminate.
Qed.




(** ** Frames *)

Lemma setitem_same_length (df : DataFrame) (name : string) (values : column) :
  length values = nrows df →
  setitem df name values
  = Returned (mkFrame (nrows df) (<[name := values]> (columns df))).
Proof.
  intros Hlen. unfold setitem.
  destruct (decide (nrows df = 0%nat ∧ values ≠ [])) as [[H0 Hne]|_].
  - destruct values; [done | simpl in Hlen; lia].
  - destruct (decide (length values = nrows df)); [done | contradiction].
Qed.

Lemma restrict_columns_lookup (names : list string) (cols : gmap string column)
    (name : string) :
  restrict_columns names cols !! name
  = if decide (name ∈ names) then cols !! name else None.
Proof.
  induction names as [|n names IH]; simpl.
  - rewrite lookup_empty.
    destruct (decide (name ∈ [])) as [Hin|]; [by apply elem_of_nil in Hin | done].
  - destruct (decide (name ∈ n :: names)) as [Hin|Hnot].
    + destruct (decide (n = name)) as [->|Hne].
      * destruct (cols !! name) eqn:Hn.
        -- by rewrite lookup_insert_eq.
        -- rewrite IH. by destruct (decide (name ∈ names)).
      * assert (name ∈ names)
          by (apply elem_of_cons in Hin as [?|?]; [congruence | done]).
        destruct (cols !! n); [rewrite lookup_insert_ne by done|];
          rewrite IH; by rewrite decide_True.
    + assert (name ∉ names) by (intros ?; apply Hnot; by right).
      assert (n ≠ name) by (intros ->; apply Hnot; by left).
      destruct (cols !! n); [rewrite lookup_insert_ne by done|];
        rewrite IH; by rewrite decide_False.
Qed.


Lemma getitem_list_Returned (df X : DataFrame) (names : list string) :
  getitem_list df names = Returned X →
  X = mkFrame (nrows df) (restrict_columns names (columns df)).
Proof.
  unfold getitem_list. destruct (List.filter _ names); [|discriminate].
  by intros [= <-].
Qed.



(** ** The scorer *)

Section Scorer.

Context (np : NumpyRandom) (sk : Sklearn).

(** What a run of the [try] block that completes has done. *)
Lemma detect_anomalies_try_Returned (data l : loc) (c : float) (w w' : world np) :
  detect_anomalies_try np sk data c w = (Returned l, w') →
  ∃ df X m ls ds df1 df2,
    heap w !! data = Some df
    ∧ getitem_list df features = Returned X
    ∧ fit_predict sk (model_of c) (cpu_count w) X = Returned (m, ls)
    ∧ setitem df "Anomaly_Score" (label_column ls) = Returned df1
    ∧ decision_function sk m (cpu_count w) X = Returned ds
    ∧ setitem df1 "Confidence" (confidence_column ds) = Returned df2
    ∧ l = data
    ∧ w' = set_heap (<[data := df2]> (heap w)) w.
Proof.
  unfold detect_anomalies_try, bind, deref, lift, setitem_at, ret, os_cpu_count.
  destruct (heap w !! data) as [df|] eqn:Hdf; [|discriminate].
  destruct (getitem_list df features) as [X|] eqn:HX; [|discriminate].
  fold (model_of c).
  destruct (fit_predict sk (model_of c) (cpu_count w) X) as [[m ls]|] eqn:Hfit;
    [|discriminate].
  rewrite Hdf. simpl.
  destruct (setitem df "Anomaly_Score" (label_column ls)) as [df1|] eqn:H1;
    [|discriminate].
  simpl.
  destruct (decision_function sk m (cpu_count w) X) as [ds|] eqn:Hds;
    [|discriminate].
  rewrite lookup_insert_eq.
  destruct (setitem df1 "Confidence" (confidence_column ds)) as [df2|] eqn:H2;
    [|discriminate].
  intros [= <- <-]. exists df, X, m, ls, ds, df1, df2.
  repeat split; try done.
  unfold set_heap. simpl. by rewrite insert_insert_eq.
Qed.

(** Conversely, a run whose steps all succeed completes. *)
Lemma detect_anomalies_try_run (data : loc) (c : float) (w : world np)
    (df X df1 df2 : DataFrame) (m : fitted sk) (ls : list Z) (ds : list float) :
  heap w !! data = Some df →
  getitem_list df features = Returned X →
  fit_predict sk (model_of c) (cpu_count w) X = Returned (m, ls) →
  setitem df "Anomaly_Score" (label_column ls) = Returned df1 →
  decision_function sk m (cpu_count w) X = Returned ds →
  setitem df1 "Confidence" (confidence_column ds) = Returned df2 →
  detect_anomalies_try np sk data c w
  = (Returned data, set_heap (<[data := df2]> (heap w)) w).
Proof.
  intros Hdf HX Hfit H1 Hds H2.
  unfold detect_anomalies_try, bind, deref, lift, setitem_at, ret, os_cpu_count.
  rewrite Hdf, HX. fold (model_of c). rewrite Hfit, Hdf. simpl.
  rewrite H1. simpl. rewrite Hds, lookup_insert_eq, H2.
  unfold set_heap. simpl. by rewrite insert_insert_eq.
Qed.

Lemma detect_anomalies_completes (data l : loc) (c : float) (w w' : world np) :
  detect_anomalies_try np sk data c w = (Returned l, w') →
  detect_anomalies np sk data c w = (Returned data, w').
Proof.
  intros Htry. unfold detect_anomalies, try_except. rewrite Htry.
  apply detect_anomalies_try_Returned in Htry as (?&?&?&?&?&?&?&_&_&_&_&_&_&->&_).
  done.
Qed.

Lemma detect_anomalies_handles (data : loc) (c : float) (w w' : world np) (e : exn) :
  detect_anomalies_try np sk data c w = (Raised e, w') →
  detect_anomalies np sk data c w
  = (Returned data,
     set_screen (screen w' ++ [EvError "Error in anomaly detection: " e]) w').
Proof.
  intros Htry. unfold detect_anomalies, try_except. by rewrite Htry.
Qed.

Lemma fails_before_labels_try (data : loc) (c : float) (w : world np) (e : exn) :
  fails_before_labels np sk data c w e →
  detect_anomalies_try np sk data c w = (Raised e, w).
Proof.
  unfold detect_anomalies_try, bind, deref, lift, setitem_at, ret, os_cpu_count.
  fold (model_of c).
  intros [Hdf | df e' Hdf HX | df X e' Hdf HX Hfit | df X fit e' Hdf HX Hfit H1].
  - by rewrite Hdf.
  - by rewrite Hdf, HX.
  - by rewrite Hdf, HX, Hfit.
  - rewrite Hdf, HX, Hfit, Hdf. simpl. by rewrite H1.
Qed.

(** A table that lacks a feature column stops the scorer at the selection
    of the features. *)
Lemma missing_feature_fails (data : loc) (c : float) (w : world np)
    (df : DataFrame) (name : string) :
  heap w !! data = Some df →
  In name features →
  columns df !! name = None →
  ∃ missing, In name missing
             ∧ fails_before_labels np sk data c w (KeyError missing).
Proof.
  intros Hdf Hin Hnone.
  assert (In name (List.filter (λ n, negb (has_column df n)) features)) as Hf.
  { apply List.filter_In. split; [done|]. unfold has_column.
    rewrite Hnone. by rewrite bool_decide_eq_false_2 by (by intros [? ?]). }
  destruct (List.filter (λ n, negb (has_column df n)) features)
    as [|n rest] eqn:Hmiss; [done|].
  exists (n :: rest). split; [done|].
  eapply fails_select; [done|]. unfold getitem_list. by rewrite Hmiss.
Qed.

End Scorer.

(** ** Claims about the scorer *)

Section ScorerClaims.

Context (np : NumpyRandom) (sk : Sklearn).

(** With one label and one score per row, both assignments of a completed
    run are plain column insertions. *)
Lemma detect_anomalies_try_columns (data l : loc) (c : float) (w w' : world np) :
  SklearnShapes sk →
  detect_anomalies_try np sk data c w = (Returned l, w') →
  ∃ df X m ls ds,
    heap w !! data = Some df
    ∧ getitem_list df features = Returned X
    ∧ fit_predict sk (model_of c) (cpu_count w) X = Returned (m, ls)
    ∧ decision_function sk m (cpu_count w) X = Returned ds
    ∧ length ls = nrows df ∧ length ds = nrows df
    ∧ w' = set_heap
             (<[data := mkFrame (nrows df)
                  (<["Confidence" := confidence_column ds]>
                     (<["Anomaly_Score" := label_column ls]> (columns df)))]>
                (heap w)) w.
Proof.
  intros Hshape Htry.
  apply detect_anomalies_try_Returned
    in Htry as (df & X & m & ls & ds & df1 & df2 & Hdf & HX & Hfit & H1 & Hds & H2 & -> & ->).
  pose proof (getitem_list_Returned _ _ _ HX) as HXeq.
  assert (nrows X = nrows df) as HnX by (by rewrite HXeq).
  assert (length ls = nrows df) as Hls
    by (rewrite <- HnX; eapply labels_shape; eauto).
  assert (length ds = nrows df) as Hlds
    by (rewrite <- HnX; eapply scores_shape; eauto).
  rewrite setitem_same_length in H1
    by (unfold label_column; by rewrite length_fmap).
  injection H1 as <-.
  rewrite setitem_same_length in H2
    by (unfold confidence_column; by rewrite length_fmap).
  injection H2 as <-. simpl.
  exists df, X, m, ls, ds. repeat split; done.
Qed.

(** C5: a scoring run that completes leaves the row count, the row order
    and every column other than [Anomaly_Score] and [Confidence] of the
    table as they were (and touches no other object); those two columns are
    the only ones it adds or overwrites.  The estimator is taken to return
    one label and one score per row. *)
Theorem detect_anomalies_frame (data l : loc) (c : float) (w w' : world np)
    (df : DataFrame) :
  SklearnShapes sk →
  heap w !! data = Some df →
  detect_anomalies_try np sk data c w = (Returned l, w') →
  detect_anomalies np sk data c w = (Returned data, w')
  ∧ ∃ df', heap w' !! data = Some df'
      ∧ nrows df' = nrows df
      ∧ (∀ name, name ≠ "Anomaly_Score" → name ≠ "Confidence" →
           columns df' !! name = columns df !! name)
      ∧ is_Some (columns df' !! "Anomaly_Score")
      ∧ is_Some (columns df' !! "Confidence")
      ∧ (∀ other, other ≠ data → heap w' !! other = heap w !! other).
Proof.
  intros Hshape Hdf Htry. split; [by eapply detect_anomalies_completes|].
  apply detect_anomalies_try_columns
    in Htry as (df0 & X & m & ls & ds & Hdf0 & _ & _ & _ & _ & _ & ->); [|done].
  rewrite Hdf in Hdf0. injection Hdf0 as <-.
  eexists. simpl. rewrite lookup_insert_eq. split; [done|]. simpl.
  repeat split.
  - intros name H1 H2. by rewrite !lookup_insert_ne.
  - rewrite lookup_insert_ne by done. rewrite lookup_insert_eq. by eexists.
  - rewrite lookup_insert_eq. by eexists.
  - intros other Hne. by rewrite lookup_insert_ne.
Qed.



(** [detect_anomalies] always returns the very object it was given, and
    when its [try] block completes that object carries both new columns. *)
Lemma detect_anomalies_in_place (data : loc) (c : float) (w : world np) :
  ∃ w', detect_anomalies np sk data c w = (Returned data, w')
        ∧ ∀ l w1, detect_anomalies_try np sk data c w = (Returned l, w1) →
            w1 = w'
            ∧ ∃ df', heap w' !! data = Some df'
                ∧ is_Some (columns df' !! "Anomaly_Score")
                ∧ is_Some (columns df' !! "Confidence").
Proof.
  destruct (detect_anomalies_try np sk data c w) as [[l|e] w1] eqn:Htry.
  - exists w1. split; [by eapply detect_anomalies_completes|].
    intros l' w1' [= <- <-]. split; [done|].
    apply detect_anomalies_try_Returned
      in Htry as (df & X & m & ls & ds & df1 & df2 & _ & _ & _ & H1 & _ & H2 & _ & ->).
    exists df2. simpl. rewrite lookup_insert_eq. split; [done|].
    assert (is_Some (columns df1 !! "Anomaly_Score")) as [col Hcol].
    { unfold setitem in H1. repeat case_decide; try discriminate;
        injection H1 as <-; simpl; rewrite lookup_insert_eq; by eexists. }
    unfold setitem in H2. repeat case_decide; try discriminate;
      injection H2 as <-; simpl; rewrite lookup_insert_eq;
      rewrite lookup_insert_ne by done; rewrite ?lookup_fmap, Hcol;
      split; by eexists.
  - eexists. split; [by apply detect_anomalies_handles|]. discriminate.
Qed.



End ScorerClaims.

(** ** The generator *)

Section Generator.

Context (np : NumpyRandom).

Local Ltac unfold_generator :=
  unfold generated, generated_state, load_data_body, try_except,
    load_data_try, bind, np_random_seed, datetime_now, lift, with_rng, ret,
    st_error, show; simpl.

Local Ltac destruct_draw :=
  match goal with
  | |- context [np_choice ?n ?A ?p ?k ?g] =>
      destruct (np_choice n A p k g) as [[?|?] ?] eqn:?; simpl
  | |- context [np_lognormal ?n ?a ?b ?k ?g] =>
      destruct (np_lognormal n a b k g) as [[?|?] ?] eqn:?; simpl
  | |- context [np_poisson ?n ?a ?k ?g] =>
      destruct (np_poisson n a k g) as [[?|?] ?] eqn:?; simpl
  end.

(** The [try] block re-seeds the generator before anything else, so what
    it builds depends on the clock and the sample count only, and all it
    changes in the process is the state of the random generator. *)
Lemma load_data_try_generated (samples : Z) (w : world np) :
  load_data_try np samples w
  = (generated np (clock w) samples,
     set_np_state (generated_state np (clock w) samples) w).
Proof.
  unfold_generator.
  repeat (destruct_draw; try done).
  match goal with |- context [if ?b then _ else _] => destruct b end; done.
Qed.

Lemma load_data_body_generated (samples : Z) (w : world np) :
  load_data_body np samples w
  = match generated np (clock w) samples with
    | Returned value =>
        (Returned value,
         set_np_state (generated_state np (clock w) samples) w)
    | Raised e =>
        (Returned None,
         set_screen (screen w ++ [EvError "Error loading data: " e])
           (set_np_state (generated_state np (clock w) samples) w))
    end.
Proof.
  unfold load_data_body, try_except. rewrite load_data_try_generated.
  by destruct (generated np (clock w) samples).
Qed.

Lemma timestamps_from_length (now : Z) (n : nat) :
  length (timestamps_from now n) = n.
Proof. unfold timestamps_from. by rewrite length_map, length_seq. Qed.

Lemma timestamps_from_lookup (now : Z) (n i : nat) :
  (i < n)%nat → timestamps_from now n !! i = Some (now + Z.of_nat i * minute).
Proof.
  intros Hi. unfold timestamps_from.
  change (map ?f ?l) with (f <$> l).
  rewrite list_lookup_fmap, lookup_seq_lt by done. done.
Qed.

(** What a run of the generator that builds a table has drawn and built. *)
Lemma generated_Returned (now samples : Z) (value : option DataFrame) :
  generated np now samples = Returned value →
  ∃ ips sent recv reqs ports g1 g2 g3 g4 g5,
      np_choice np string ip_pool samples (np_seed np 42) = (Returned ips, g1)
      ∧ np_lognormal np 5 1 samples g1 = (Returned sent, g2)
      ∧ np_lognormal np 5 1 samples g2 = (Returned recv, g3)
      ∧ np_poisson np 25 samples g3 = (Returned reqs, g4)
      ∧ np_choice np Z port_pool samples g4 = (Returned ports, g5)
      ∧ length ips = Z.to_nat samples ∧ length sent = Z.to_nat samples
      ∧ length recv = Z.to_nat samples ∧ length reqs = Z.to_nat samples
      ∧ length ports = Z.to_nat samples
      ∧ value = Some (mkFrame (Z.to_nat samples) (list_to_map
          [("Timestamp", CTime <$> timestamps_from now (Z.to_nat samples));
           ("IP_Address", CStr <$> ips);
           ("Bytes_Sent", (λ x, CInt (astype_int np x)) <$> sent);
           ("Bytes_Received", (λ x, CInt (astype_int np x)) <$> recv);
           ("Request_Count", CInt <$> reqs);
           ("Port", CInt <$> ports)])).
Proof.
  unfold_generator. unfold pd_date_range.
  repeat (destruct_draw; try discriminate).
  rewrite !length_fmap, timestamps_from_length.
  match goal with |- context [if ?b then _ else _] => destruct b eqn:Hlen end;
    [|discriminate].
  intros [= <-].
  repeat (apply andb_prop in Hlen as [?%Nat.eqb_eq Hlen]).
  do 10 eexists. repeat split; try done.
Qed.

(** With the library keeping its contract, the generator builds a table of
    the requested number of traffic records. *)
Lemma generated_table (now samples : Z) :
  NumpyContract np → 0 ≤ samples →
  ∃ df, generated np now samples = Returned (Some df)
        ∧ traffic_table (Z.to_nat samples) df
        ∧ columns df !! "Timestamp"
          = Some (CTime <$> timestamps_from now (Z.to_nat samples)).
Proof.
  intros Hnp Hn.
  unfold_generator. unfold pd_date_range.
  destruct (choice_draws np Hnp string ip_pool samples (np_seed np 42))
    as (ips & g1 & -> & Hips & Hip); [done|done|]. simpl.
  destruct (lognormal_draws np Hnp samples g1)
    as (sent & g2 & -> & Hsents & Hsent); [done|]. simpl.
  destruct (lognormal_draws np Hnp samples g2)
    as (recv & g3 & -> & Hrecvs & Hrecv); [done|]. simpl.
  destruct (poisson_draws np Hnp samples g3)
    as (reqs & g4 & -> & Hreqss & Hreqs); [done|]. simpl.
  destruct (choice_draws np Hnp Z port_pool samples g4)
    as (ports & g5 & -> & Hportss & Hport); [done|done|]. simpl.
  rewrite !length_fmap, timestamps_from_length, Hips, Hsents, Hrecvs, Hreqss,
    Hportss, Nat.eqb_refl. simpl.
  eexists. split; [done|]. split; [|simpl; by rewrite lookup_insert_eq].
  split; [done|]. simpl.
  exists (timestamps_from now (Z.to_nat samples)), ips,
    (astype_int np <$> sent), (astype_int np <$> recv), reqs, ports.
  rewrite <- !list_fmap_compose, !length_fmap, timestamps_from_length.
  repeat split; try done.
  - eapply Forall_fmap, Forall_impl; [exact Hsent|].
    intros x [Hpos Hfit]. by apply astype_int_nonneg.
  - eapply Forall_fmap, Forall_impl; [exact Hrecv|].
    intros x [Hpos Hfit]. by apply astype_int_nonneg.
Qed.

(** Two runs of the generator differ in their timestamps at most. *)
Lemma generated_any_clock (now1 now2 samples : Z) :
  match generated np now1 samples, generated np now2 samples with
  | Returned value1, Returned value2 =>
      drop_column "Timestamp" <$> value1 = drop_column "Timestamp" <$> value2
  | Raised e1, Raised e2 => e1 = e2
  | _, _ => False
  end
  ∧ generated_state np now1 samples = generated_state np now2 samples.
Proof.
  unfold_generator. unfold pd_date_range.
  repeat (destruct_draw; try done).
  rewrite !length_fmap, !timestamps_from_length.
  match goal with |- context [if ?b then _ else _] => destruct b end;
    [|done].
  split; [|done]. simpl. unfold drop_column. simpl.
  by rewrite !delete_insert_eq.
Qed.

End Generator.

(** ** The cache in front of the generator *)

Section Cache.

Context (np : NumpyRandom).

Lemma generated_Some (now samples : Z) (value : option DataFrame) :
  generated np now samples = Returned value → is_Some value.
Proof.
  intros H. apply generated_Returned in H.
  destruct H as (?&?&?&?&?&?&?&?&?&?&_&_&_&_&_&_&_&_&_&_&->). by eexists.
Qed.

Lemma load_data_hit (samples : Z) (w : world np) (df : DataFrame)
    (messages : list ui_event) :
  data_cache w !! samples = Some (Some df, messages) →
  load_data np samples w
  = (Returned (Some (fresh (dom (heap w)))),
     mkWorld (<[fresh (dom (heap w)) := df]> (heap w)) (screen w ++ messages)
       (np_state w) (data_cache w) (clock w) (cpu_count w)).
Proof. intros H. unfold load_data, st_cache_data. by rewrite H. Qed.

Lemma load_data_hit_None (samples : Z) (w : world np)
    (messages : list ui_event) :
  data_cache w !! samples = Some (None, messages) →
  load_data np samples w = (Returned None, set_screen (screen w ++ messages) w).
Proof. intros H. unfold load_data, st_cache_data. by rewrite H. Qed.

Lemma load_data_miss (samples : Z) (w : world np) :
  data_cache w !! samples = None →
  load_data np samples w
  = match generated np (clock w) samples with
    | Returned (Some df) =>
        (Returned (Some (fresh (dom (heap w)))),
         mkWorld (<[fresh (dom (heap w)) := df]> (heap w)) (screen w ++ [])
           (generated_state np (clock w) samples)
           (<[samples := (Some df, [])]> (data_cache w))
           (clock w) (cpu_count w))
    | Returned None =>
        (Returned None,
         mkWorld (heap w) (screen w ++ [])
           (generated_state np (clock w) samples)
           (<[samples := (None, [])]> (data_cache w))
           (clock w) (cpu_count w))
    | Raised e =>
        (Returned None,
         mkWorld (heap w) (screen w ++ [EvError "Error loading data: " e])
           (generated_state np (clock w) samples)
           (<[samples := (None, [EvError "Error loading data: " e])]>
              (data_cache w))
           (clock w) (cpu_count w))
    end.
Proof.
  intros H. unfold load_data, st_cache_data. rewrite H.
  rewrite load_data_body_generated. simpl.
  by destruct (generated np (clock w) samples) as [[df|]|e].
Qed.

(** [load_data] never raises. *)
Lemma load_data_returns (samples : Z) (w : world np) :
  ∃ value w', load_data np samples w = (Returned value, w').
Proof.
  destruct (data_cache w !! samples) as [[[df|] messages]|] eqn:Hc.
  - rewrite (load_data_hit _ _ _ _ Hc). eauto.
  - rewrite (load_data_hit_None _ _ _ Hc). eauto.
  - rewrite (load_data_miss _ _ Hc).
    destruct (generated np (clock w) samples) as [[df|]|e]; eauto.
Qed.

(** Loading keeps the cache sound. *)
Lemma load_data_cache_sound (samples : Z) (w : world np) :
  cache_sound np w → cache_sound np (load_data np samples w).2.
Proof.
  intros Hsound.
  destruct (data_cache w !! samples) as [[[df|] messages]|] eqn:Hc.
  - by rewrite (load_data_hit _ _ _ _ Hc).
  - by rewrite (load_data_hit_None _ _ _ Hc).
  - rewrite (load_data_miss _ _ Hc).
    assert (∀ value msgs,
      load_data_body np samples (set_screen [] w)
      = (Returned value,
         set_screen msgs (set_np_state (generated_state np (clock w) samples)
                            (set_screen [] w))) →
      cache_sound np (set_data_cache (<[samples := (value, msgs)]> (data_cache w)) w))
      as Hins.
    { intros value msgs Hbody n v ms. simpl.
      destruct (decide (samples = n)) as [<-|Hne].
      - rewrite lookup_insert_eq. intros [= <- <-]. by do 2 eexists.
      - rewrite lookup_insert_ne by done. apply Hsound. }
    pose proof (load_data_body_generated np samples (set_screen [] w)) as Hbody.
    simpl in Hbody.
    destruct (generated np (clock w) samples) as [[df|]|e];
      intros n v ms; simpl; (eapply Hins; [rewrite Hbody; reflexivity]).
Qed.

End Cache.

(** ** Claims about the generator *)

Section GeneratorClaims.

Context (np : NumpyRandom).

(** C4: for a positive sample size, [load_data] returns a table of exactly
    that many records, each with non-negative [Bytes_Sent],
    [Bytes_Received] and [Request_Count], an [IP_Address] from the address
    pool and a [Port] from the port pool.  NumPy is taken to keep the
    documented contract of its draws, and the cache to hold only what the
    function itself built. *)
Theorem load_data_builds_traffic_table (samples : Z) (w : world np) :
  NumpyContract np → cache_sound np w → 0 < samples →
  ∃ l df w', load_data np samples w = (Returned (Some l), w')
             ∧ heap w' !! l = Some df
             ∧ traffic_table (Z.to_nat samples) df.
Proof.
  intros Hnp Hsound Hpos.
  destruct (data_cache w !! samples) as [[value messages]|] eqn:Hc.
  - destruct (Hsound _ _ _ Hc) as (w0 & w0' & Hbody & _ & _).
    rewrite load_data_body_generated in Hbody.
    destruct (generated_table np (clock w0) samples Hnp) as (df & Hgen & Htable & _);
      [lia|].
    rewrite Hgen in Hbody. injection Hbody as <- _.
    rewrite (load_data_hit _ _ _ _ _ Hc).
    do 3 eexists. split; [done|]. simpl. by rewrite lookup_insert_eq.
  - rewrite (load_data_miss _ _ _ Hc).
    destruct (generated_table np (clock w) samples Hnp) as (df & -> & Htable & _);
      [lia|].
    do 3 eexists. split; [done|]. simpl. by rewrite lookup_insert_eq.
Qed.

(** C9: the [Timestamp] column of a generated table starts at the clock
    reading of the run that built it and advances by exactly one minute per
    record, so the timestamps increase strictly. *)
Theorem load_data_timestamps (samples : Z) (w w' : world np) (df : DataFrame) :
  load_data_body np samples w = (Returned (Some df), w') →
  ∃ ts, columns df !! "Timestamp" = Some (CTime <$> ts)
        ∧ length ts = Z.to_nat samples
        ∧ nrows df = Z.to_nat samples
        ∧ (∀ i t, ts !! i = Some t → t = clock w + Z.of_nat i * minute)
        ∧ (∀ i j ti tj, (i < j)%nat → ts !! i = Some ti → ts !! j = Some tj →
             ti < tj).
Proof.
  rewrite load_data_body_generated.
  destruct (generated np (clock w) samples) as [value|e] eqn:Hgen;
    [|discriminate].
  intros [= -> _].
  apply generated_Returned in Hgen.
  destruct Hgen as (?&?&?&?&?&?&?&?&?&?&_&_&_&_&_&_&_&_&_&_&[= ->]).
  exists (timestamps_from (clock w) (Z.to_nat samples)). simpl.
  rewrite lookup_insert_eq, timestamps_from_length.
  assert (∀ i t, timestamps_from (clock w) (Z.to_nat samples) !! i = Some t →
                 t = clock w + Z.of_nat i * minute) as Hat.
  { intros i t Hi. pose proof (lookup_lt_Some _ _ _ Hi) as Hlt.
    rewrite timestamps_from_length in Hlt.
    rewrite timestamps_from_lookup in Hi by done. congruence. }
  repeat split; try done.
  intros i j ti tj Hij Hi Hj. apply Hat in Hi, Hj. subst.
  unfold minute. lia.
Qed.


End GeneratorClaims.

(** ** The dashboard *)

Section MainClaims.

Context (np : NumpyRandom) (sk : Sklearn).

Lemma main_unfold (ctl : controls) (w : world np) :
  main np sk ctl w
  = match load_data np (sample_size ctl)
            (set_screen (screen w ++ main_header) w) with
    | (Returned None, w1) => (Returned tt, w1)
    | (Returned (Some data), w1) => main_with_data np sk ctl data w1
    | (Raised e, w1) => (Raised e, w1)
    end.
Proof.
  unfold main, bind, show, ret, main_header. simpl.
  rewrite <- !app_assoc. simpl.
  by destruct (load_data np (sample_size ctl) _) as [[[data|]|e] w1].
Qed.

(** C8: when the construction of the records fails, [load_data] catches
    the error, displays it and returns no table; [main], called when no
    table for that sample size is cached, then returns after the header and
    that message, rendering nothing else, and the script's entry point sees
    no exception. *)
Theorem load_data_failure_is_handled (samples : Z) (w w1 : world np) (e : exn) :
  load_data_try np samples w = (Raised e, w1) →
  load_data_body np samples w
  = (Returned None,
     set_screen (screen w1 ++ [EvError "Error loading data: " e]) w1)
  ∧ ∀ ctl, sample_size ctl = samples → data_cache w !! samples = None →
      ∃ w', main np sk ctl w = (Returned tt, w')
            ∧ run_script np sk ctl w = (Returned tt, w')
            ∧ screen w'
              = (screen w ++ main_header ++ [EvError "Error loading data: " e])%list
            ∧ heap w' = heap w.
Proof.
  intros Htry. split.
  - unfold load_data_body, try_except. by rewrite Htry.
  - intros ctl <- Hmiss.
    rewrite load_data_try_generated in Htry. injection Htry as Hgen _.
    assert (main np sk ctl w
            = (Returned tt,
               mkWorld (heap w)
                 ((screen w ++ main_header) ++ [EvError "Error loading data: " e])
                 (generated_state np (clock w) (sample_size ctl))
                 (<[sample_size ctl := (None, [EvError "Error loading data: " e])]>
                    (data_cache w))
                 (clock w) (cpu_count w))) as Hmain.
    { rewrite main_unfold, load_data_miss by done. simpl. by rewrite Hgen. }
    eexists. split; [exact Hmain|]. split.
    + unfold run_script, try_except. by rewrite Hmain.
    + simpl. by rewrite <- app_assoc.
Qed.



End MainClaims.

(** ** The concrete instance keeps the contracts *)

Lemma demo_draws {A : Type} (f : nat → A) (n : Z) (g : nat) :
  0 ≤ n →
  Demo.draws f n g = (Returned (f <$> seq g (Z.to_nat n)), (g + Z.to_nat n)%nat).
Proof.
  intros Hn. unfold Demo.draws. by rewrite (proj2 (Z.ltb_ge n 0)).
Qed.

Lemma demo_lognormal_value (i : nat) :
  (0 <? Demo.lognormal_value i)%float = true
  ∧ fits_int64 (Demo.lognormal_value i) = true.
Proof.
  unfold Demo.lognormal_value.
  destruct (i mod 4)%nat as [|[|[|?]]]; split; reflexivity.
Qed.

Lemma demo_numpy_contract : NumpyContract Demo.numpy.
Proof.
  split; simpl.
  - intros A pool n g Hpool Hn. unfold Demo.choice.
    destruct pool as [|d pool]; [done|].
    rewrite demo_draws by done. do 2 eexists. split; [done|].
    split; [by rewrite length_fmap, length_seq|].
    apply Forall_fmap, Forall_forall. intros i _. cbv beta.
    apply nth_In. apply Nat.mod_upper_bound. simpl. lia.
  - intros n g Hn. unfold Demo.lognormal.
    replace (1 <? 0)%float with false by reflexivity.
    rewrite demo_draws by done.
    do 2 eexists. split; [done|].
    split; [by rewrite length_fmap, length_seq|].
    apply Forall_fmap, Forall_forall. intros i _. apply demo_lognormal_value.
  - intros n g Hn. unfold Demo.poisson.
    replace (25 <? 0) with false by reflexivity.
    rewrite demo_draws by done.
    do 2 eexists. split; [done|].
    split; [by rewrite length_fmap, length_seq|].
    apply Forall_fmap, Forall_forall. intros i _. simpl. lia.
Qed.

Lemma demo_scores_length (X : DataFrame) (ds : list float) :
  Demo.scores X = Returned ds → length ds = nrows X.
Proof.
  unfold Demo.scores. destruct (getitem X "Request_Count"); [|discriminate].
  case_decide; [|discriminate]. intros [= <-]. by rewrite length_fmap.
Qed.

Lemma demo_sklearn_shapes : SklearnShapes Demo.sklearn.
Proof.
  split; simpl.
  - intros _ _ X m ls. destruct (Demo.scores X) as [ds|] eqn:Hds; [|discriminate].
    intros [= _ <-]. rewrite length_fmap. by apply demo_scores_length.
  - intros _ _ X ds. apply demo_scores_length.
Qed.

Lemma demo_sklearn_sign : SklearnSign Demo.sklearn.
Proof.
  split; simpl.
  - intros _ _ X m ls ds. destruct (Demo.scores X); [|discriminate].
    by intros [= _ <-] [= <-].
  - intros _ _ X ds. unfold Demo.scores.
    destruct (getitem X "Request_Count"); [|discriminate].
    case_decide; [|discriminate]. intros [= <-].
    apply Forall_fmap, Forall_forall. intros cell _. unfold Demo.score_of. simpl.
    destruct cell; try reflexivity. by destruct (27 <? z).
Qed.


Lemma fresh_world_cache_sound (now : Z) (cpus : nat) :
  cache_sound Demo.numpy (Demo.fresh_world now cpus).
Proof. intros n value messages. simpl. by rewrite lookup_empty. Qed.

Lemma world_with_cache_sound (df : DataFrame) :
  cache_sound Demo.numpy (Demo.world_with df).
Proof. intros n value messages. simpl. by rewrite lookup_empty. Qed.

(** ** The claims on concrete runs *)



Lemma detect_anomalies_frame_witness :
  ∃ w', SklearnShapes Demo.sklearn
    ∧ heap (Demo.world_with Demo.three_rows) !! 1%positive = Some Demo.three_rows
    ∧ detect_anomalies_try Demo.numpy Demo.sklearn 1 0.125
        (Demo.world_with Demo.three_rows) = (Returned 1%positive, w')
    ∧ detect_anomalies Demo.numpy Demo.sklearn 1 0.125
        (Demo.world_with Demo.three_rows) = (Returned 1%positive, w')
    ∧ ∃ df', heap w' !! 1%positive = Some df'
        ∧ nrows df' = nrows Demo.three_rows
        ∧ (∀ name, name ≠ "Anomaly_Score" → name ≠ "Confidence" →
             columns df' !! name = columns Demo.three_rows !! name)
        ∧ is_Some (columns df' !! "Anomaly_Score")
        ∧ is_Some (columns df' !! "Confidence")
        ∧ (∀ other, other ≠ 1%positive →
             heap w' !! other = heap (Demo.world_with Demo.three_rows) !! other).
Proof.
  eexists.
  assert (detect_anomalies_try Demo.numpy Demo.sklearn 1 0.125
            (Demo.world_with Demo.three_rows) = (Returned 1%positive, _)) as Htry
    by (vm_compute; reflexivity).
  assert (heap (Demo.world_with Demo.three_rows) !! 1%positive
          = Some Demo.three_rows) as Hobj by (vm_compute; reflexivity).
  split; [exact demo_sklearn_shapes|]. split; [exact Hobj|].
  split; [exact Htry|].
  exact (detect_anomalies_frame Demo.numpy Demo.sklearn 1 1 0.125 _ _ _
           demo_sklearn_shapes Hobj Htry).
Defined.



Lemma load_data_builds_traffic_table_witness :
  NumpyContract Demo.numpy ∧ cache_sound Demo.numpy (Demo.fresh_world 0 4)
  ∧ 0 < 100
  ∧ ∃ l df w', load_data Demo.numpy 100 (Demo.fresh_world 0 4)
               = (Returned (Some l), w')
               ∧ heap w' !! l = Some df
               ∧ traffic_table (Z.to_nat 100) df.
Proof.
  split; [exact demo_numpy_contract|].
  split; [exact (fresh_world_cache_sound 0 4)|].
  split; [lia|].
  apply (load_data_builds_traffic_table Demo.numpy 100 (Demo.fresh_world 0 4)
           demo_numpy_contract (fresh_world_cache_sound 0 4)).
  lia.
Defined.

Lemma load_data_timestamps_witness :
  ∃ df w', load_data_body Demo.numpy 3 (Demo.fresh_world 1000 4)
           = (Returned (Some df), w')
    ∧ ∃ ts, columns df !! "Timestamp" = Some (CTime <$> ts)
        ∧ length ts = Z.to_nat 3
        ∧ nrows df = Z.to_nat 3
        ∧ (∀ i t, ts !! i = Some t →
             t = clock (Demo.fresh_world 1000 4) + Z.of_nat i * minute)
        ∧ (∀ i j ti tj, (i < j)%nat → ts !! i = Some ti → ts !! j = Some tj →
             ti < tj).
Proof.
  do 2 eexists.
  assert (load_data_body Demo.numpy 3 (Demo.fresh_world 1000 4)
          = (Returned (Some _), _)) as Hrun by (vm_compute; reflexivity).
  split; [exact Hrun|].
  exact (load_data_timestamps Demo.numpy 3 _ _ _ Hrun).
Defined.



Lemma load_data_failure_is_handled_witness :
  ∃ w1, load_data_try Demo.numpy (-1) (Demo.fresh_world 0 4)
        = (Raised (ValueError "negative dimensions are not allowed"), w1)
    ∧ load_data_body Demo.numpy (-1) (Demo.fresh_world 0 4)
      = (Returned None,
         set_screen (screen w1 ++ [EvError "Error loading data: "
             (ValueError "negative dimensions are not allowed")]) w1)
    ∧ ∀ ctl, sample_size ctl = -1 →
        data_cache (Demo.fresh_world 0 4) !! (-1) = None →
        ∃ w', main Demo.numpy Demo.sklearn ctl (Demo.fresh_world 0 4)
              = (Returned tt, w')
              ∧ run_script Demo.numpy Demo.sklearn ctl (Demo.fresh_world 0 4)
                = (Returned tt, w')
              ∧ screen w'
                = (screen (Demo.fresh_world 0 4) ++ main_header
                   ++ [EvError "Error loading data: "
                         (ValueError "negative dimensions are not allowed")])%list
              ∧ heap w' = heap (Demo.fresh_world 0 4).
Proof.
  eexists.
  assert (load_data_try Demo.numpy (-1) (Demo.fresh_world 0 4)
          = (Raised (ValueError "negative dimensions are not allowed"), _))
    as Htry by (vm_compute; reflexivity).
  split; [exact Htry|].
  exact (load_data_failure_is_handled Demo.numpy Demo.sklearn (-1) _ _ _ Htry).
Defined.


(** * Further properties *)

Arguments px_columns_ok : simpl never.

(** ** Row selection *)

Lemma boolean_mask_fmap {A B : Type} (p : A → bool) (g : A → B) (xs : list A) :
  boolean_mask (p <$> xs) (g <$> xs) = g <$> List.filter p xs.
Proof.
  induction xs as [|x xs IH]; csimpl; [done|].
  destruct (p x); csimpl; by rewrite IH.
Qed.

Lemma boolean_mask_filter {A : Type} (p : A → bool) (xs : list A) :
  boolean_mask (p <$> xs) xs = List.filter p xs.
Proof.
  pose proof (boolean_mask_fmap p id xs) as H.
  by rewrite !list_fmap_id in H.
Qed.

Lemma boolean_mask_length {A B : Type} (mask : list bool) (xs : list A)
    (ys : list B) :
  length xs = length ys →
  length (boolean_mask mask xs) = length (boolean_mask mask ys).
Proof.
  revert xs ys. induction mask as [|b mask IH]; intros [|x xs] [|y ys] Hlen;
    simpl in *; try done.
  injection Hlen as Hlen. destruct b; simpl; by rewrite (IH xs ys).
Qed.

Lemma boolean_mask_sublist {A : Type} (mask : list bool) (xs : list A) :
  sublist (boolean_mask mask xs) xs.
Proof.
  revert xs. induction mask as [|b mask IH]; intros [|x xs]; simpl;
    try apply sublist_nil_l.
  destruct b; [by apply sublist_skip | by apply sublist_cons].
Qed.

Lemma getitem_mask_wf (df : DataFrame) (mask : list bool) :
  wf_frame df → wf_frame (getitem_mask df mask).
Proof.
  intros Hwf name col. unfold getitem_mask. simpl. rewrite lookup_fmap.
  destruct (columns df !! name) as [col0|] eqn:Hcol; [|done].
  intros [= <-]. apply boolean_mask_length.
  rewrite length_seq. by apply Hwf in Hcol.
Qed.

Lemma getitem_mask_has_column (df : DataFrame) (mask : list bool) (name : string) :
  has_column (getitem_mask df mask) name = has_column df name.
Proof.
  unfold has_column, getitem_mask. simpl. rewrite lookup_fmap.
  apply bool_decide_ext. by rewrite fmap_is_Some.
Qed.

Lemma setitem_wf (df df' : DataFrame) (name : string) (values : column) :
  wf_frame df → setitem df name values = Returned df' → wf_frame df'.
Proof.
  intros Hwf. unfold setitem. repeat case_decide; [| |discriminate];
    intros [= <-]; intros n col; simpl.
  - destruct (decide (name = n)) as [->|Hne].
    + rewrite lookup_insert_eq. by intros [= <-].
    + rewrite lookup_insert_ne, lookup_fmap by done.
      destruct (columns df !! n); [|done]. intros [= <-].
      by rewrite length_replicate.
  - destruct (decide (name = n)) as [->|Hne].
    + rewrite lookup_insert_eq. by intros [= <-].
    + rewrite lookup_insert_ne by done. apply Hwf.
Qed.

(** ** Every outcome of the scorer *)

Section ScorerOutcomes.

Context (np : NumpyRandom) (sk : Sklearn).

(** Scoring stops after the label column is written: the fitted model
    cannot be scored, or the scores do not fit the table. *)
Lemma detect_anomalies_cases (data : loc) (c : float) (w : world np) :
  (∃ l w', detect_anomalies_try np sk data c w = (Returned l, w')
           ∧ detect_anomalies np sk data c w = (Returned data, w'))
  ∨ (∃ e, fails_before_labels np sk data c w e
          ∧ detect_anomalies np sk data c w
            = (Returned data,
               set_screen (screen w ++ [EvError "Error in anomaly detection: " e]) w))
  ∨ (∃ e df X m ls df1,
        heap w !! data = Some df
        ∧ getitem_list df features = Returned X
        ∧ fit_predict sk (model_of c) (cpu_count w) X = Returned (m, ls)
        ∧ setitem df "Anomaly_Score" (label_column ls) = Returned df1
        ∧ (decision_function sk m (cpu_count w) X = Raised e
           ∨ ∃ ds, decision_function sk m (cpu_count w) X = Returned ds
                   ∧ setitem df1 "Confidence" (confidence_column ds) = Raised e)
        ∧ detect_anomalies np sk data c w
          = (Returned data,
             set_screen (screen w ++ [EvError "Error in anomaly detection: " e])
               (set_heap (<[data := df1]> (heap w)) w))).
Proof.
  destruct (detect_anomalies_try np sk data c w) as [[l|e] w'] eqn:Htry.
  { left. exists l, w'. split; [done|]. by eapply detect_anomalies_completes. }
  right. rewrite (detect_anomalies_handles _ _ _ _ _ _ _ Htry).
  revert Htry.
  unfold detect_anomalies_try, bind, deref, lift, setitem_at, ret, os_cpu_count.
  fold (model_of c).
  destruct (heap w !! data) as [df|] eqn:Hdf.
  2:{ intros [= <- <-]. left. eexists. split; [by apply fails_no_object|done]. }
  destruct (getitem_list df features) as [X|e0] eqn:HX.
  2:{ intros [= <- <-]. left. eexists. split; [by eapply fails_select|done]. }
  destruct (fit_predict sk (model_of c) (cpu_count w) X) as [[m ls]|e0] eqn:Hfit.
  2:{ intros [= <- <-]. left. eexists. split; [by eapply fails_fit|done]. }
  rewrite Hdf. simpl.
  destruct (setitem df "Anomaly_Score" (label_column ls)) as [df1|e0] eqn:H1.
  2:{ intros [= <- <-]. left. eexists. split; [by eapply fails_assign|done]. }
  simpl.
  destruct (decision_function sk m (cpu_count w) X) as [ds|e0] eqn:Hds.
  2:{ intros [= <- <-]. right. exists e0, df, X, m, ls, df1.
      repeat split; try done. by left. }
  rewrite lookup_insert_eq.
  destruct (setitem df1 "Confidence" (confidence_column ds)) as [df2|e0] eqn:H2;
    [discriminate|].
  intros [= <- <-]. right. exists e0, df, X, m, ls, df1.
  repeat split; try done. right. by exists ds.
Qed.

End ScorerOutcomes.


(** ** More about the scorer *)

Lemma getitem_list_ext (df1 df2 : DataFrame) (names : list string) :
  nrows df1 = nrows df2 →
  (∀ name, name ∈ names → columns df1 !! name = columns df2 !! name) →
  getitem_list df1 names = getitem_list df2 names.
Proof.
  intros Hrows Hcols. unfold getitem_list.
  replace (List.filter (λ name, negb (has_column df2 name)) names)
    with (List.filter (λ name, negb (has_column df1 name)) names).
  2:{ apply List.filter_ext_in. intros name Hin. unfold has_column.
      rewrite Hcols; [done|]. by apply list_elem_of_In. }
  replace (restrict_columns names (columns df2))
    with (restrict_columns names (columns df1)); [by rewrite Hrows|].
  apply map_eq. intros name. rewrite !restrict_columns_lookup.
  destruct (decide (name ∈ names)); [by apply Hcols | done].
Qed.

(** An assignment to two frames with the same index has the same outcome
    on both, and keeps the columns on which they agree in agreement. *)
Lemma setitem_agree (df1 df2 : DataFrame) (name : string) (values : column) :
  nrows df1 = nrows df2 →
  match setitem df1 name values, setitem df2 name values with
  | Returned a, Returned b =>
      nrows a = nrows b
      ∧ columns a !! name = Some values ∧ columns b !! name = Some values
      ∧ ∀ other, columns df1 !! other = columns df2 !! other →
                 columns a !! other = columns b !! other
  | Raised e1, Raised e2 => e1 = e2
  | _, _ => False
  end.
Proof.
  intros Hrows. unfold setitem. rewrite <- Hrows.
  destruct (decide (nrows df1 = 0%nat ∧ values ≠ [])); simpl.
  - rewrite !lookup_insert_eq. repeat split; try done.
    intros other Heq. destruct (decide (name = other)) as [->|Hne].
    + by rewrite !lookup_insert_eq.
    + rewrite !lookup_insert_ne, !lookup_fmap by done. by rewrite Heq.
  - destruct (decide (length values = nrows df1)); [|done]. simpl.
    rewrite !lookup_insert_eq. repeat split; try done.
    intros other Heq. destruct (decide (name = other)) as [->|Hne].
    + by rewrite !lookup_insert_eq.
    + by rewrite !lookup_insert_ne.
Qed.

(** What an assignment leaves of the other columns: their names. *)
Lemma setitem_other_is_Some (df df' : DataFrame) (name other : string)
    (values : column) :
  setitem df name values = Returned df' → other ≠ name →
  is_Some (columns df' !! other) ↔ is_Some (columns df !! other).
Proof.
  unfold setitem. intros H Hne. repeat case_decide; try discriminate;
    injection H as <-; simpl; rewrite lookup_insert_ne by done; [|done].
  by rewrite lookup_fmap, fmap_is_Some.
Qed.

Lemma setitem_lookup (df df' : DataFrame) (name : string) (values : column) :
  setitem df name values = Returned df' → columns df' !! name = Some values.
Proof.
  unfold setitem. intros H. repeat case_decide; try discriminate;
    injection H as <-; simpl; by rewrite lookup_insert_eq.
Qed.

Section ScorerTable.

Context (np : NumpyRandom) (sk : Sklearn).

(** What [detect_anomalies] can change in the process: the object it is
    given and the screen. *)
Lemma detect_anomalies_world (data : loc) (c : float) (w : world np) :
  ∃ h msgs,
    detect_anomalies np sk data c w
    = (Returned data,
       mkWorld h (screen w ++ msgs) (np_state w) (data_cache w) (clock w)
         (cpu_count w))
    ∧ (∀ other, other ≠ data → h !! other = heap w !! other)
    ∧ (is_Some (h !! data) ↔ is_Some (heap w !! data)).
Proof.
  destruct (detect_anomalies_cases np sk data c w)
    as [(l & w' & Htry & ->) | [(e & _ & ->) | (e & df & X & m & ls & df1 & Hdf & _ & _ & _ & _ & ->)]].
  - apply detect_anomalies_try_Returned
      in Htry as (df & X & m & ls & ds & df1 & df2 & Hdf & _ & _ & _ & _ & _ & _ & ->).
    exists (<[data := df2]> (heap w)), []. rewrite app_nil_r.
    split; [done|]. split.
    + intros other Hne. by rewrite lookup_insert_ne.
    + rewrite lookup_insert_eq, Hdf. split; by eexists.
  - exists (heap w), [EvError "Error in anomaly detection: " e]. done.
  - exists (<[data := df1]> (heap w)), [EvError "Error in anomaly detection: " e].
    split; [done|]. split.
    + intros other Hne. by rewrite lookup_insert_ne.
    + rewrite lookup_insert_eq, Hdf. split; by eexists.
Qed.

(** X5: [detect_anomalies] never raises and always returns the object
    it was given.  It leaves the random generator, the cache, the clock
    and every other object alone, and it ends in one of three ways: both
    score columns written and nothing displayed; or nothing written and
    one error displayed; or the label column written, no confidence
    written, and one error displayed. *)
Theorem detect_anomalies_outcomes (data : loc) (c : float) (w : world np) :
  ∃ w', detect_anomalies np sk data c w = (Returned data, w')
    ∧ np_state w' = np_state w ∧ data_cache w' = data_cache w
    ∧ clock w' = clock w ∧ cpu_count w' = cpu_count w
    ∧ (∀ other, other ≠ data → heap w' !! other = heap w !! other)
    ∧ ((screen w' = screen w
        ∧ ∃ df', heap w' !! data = Some df'
            ∧ is_Some (columns df' !! "Anomaly_Score")
            ∧ is_Some (columns df' !! "Confidence"))
       ∨ (∃ e, screen w'
               = (screen w ++ [EvError "Error in anomaly detection: " e])%list
               ∧ heap w' = heap w)
       ∨ (∃ e df df',
             screen w'
             = (screen w ++ [EvError "Error in anomaly detection: " e])%list
             ∧ heap w !! data = Some df ∧ heap w' !! data = Some df'
             ∧ is_Some (columns df' !! "Anomaly_Score")
             ∧ (is_Some (columns df' !! "Confidence")
                ↔ is_Some (columns df !! "Confidence")))).
Proof.
  destruct (detect_anomalies_cases np sk data c w)
    as [(l & w' & Htry & ->) | [(e & _ & ->) | (e & df & X & m & ls & df1 & Hdf & _ & _ & H1 & _ & ->)]].
  - pose proof Htry as Hrun.
    apply detect_anomalies_try_Returned
      in Htry as (df & X & m & ls & ds & df1 & df2 & Hdf & _ & _ & H1 & _ & H2 & _ & ->).
    eexists. split; [done|]. simpl. repeat (split; [done|]).
    split; [intros other Hne; by rewrite lookup_insert_ne|].
    left. split; [done|]. exists df2. rewrite lookup_insert_eq.
    split; [done|]. split.
    + apply (setitem_other_is_Some _ _ _ "Anomaly_Score") in H2; [|done].
      apply H2. rewrite (setitem_lookup _ _ _ _ H1). by eexists.
    + rewrite (setitem_lookup _ _ _ _ H2). by eexists.
  - eexists. split; [done|]. simpl. repeat (split; [done|]).
    right. left. by exists e.
  - eexists. split; [done|]. simpl. repeat (split; [done|]).
    split; [intros other Hne; by rewrite lookup_insert_ne|].
    right. right. exists e, df, df1. rewrite lookup_insert_eq.
    repeat (split; [done|]). split.
    + rewrite (setitem_lookup _ _ _ _ H1). by eexists.
    + by apply (setitem_other_is_Some _ _ _ _ _ H1).
Qed.

(** X6: whether or not the scoring succeeds, the table keeps its number
    of rows and every column other than [Anomaly_Score] and [Confidence]
    as they were, and it stays rectangular.  The estimator is taken to
    return one label and one score per row. *)
Theorem scoring_keeps_base_columns (data : loc) (c : float) (w : world np)
    (df : DataFrame) :
  SklearnShapes sk →
  heap w !! data = Some df →
  ∃ df', heap (detect_anomalies np sk data c w).2 !! data = Some df'
    ∧ nrows df' = nrows df
    ∧ (∀ name, name ≠ "Anomaly_Score" → name ≠ "Confidence" →
         columns df' !! name = columns df !! name)
    ∧ (wf_frame df → wf_frame df').
Proof.
  intros Hshape Hdf.
  destruct (detect_anomalies_cases np sk data c w)
    as [(l & w' & Htry & ->) | [(e & _ & ->) | (e & df0 & X & m & ls & df1 & Hdf0 & HX & Hfit & H1 & _ & ->)]].
  - apply detect_anomalies_try_columns
      in Htry as (df0 & X & m & ls & ds & Hdf0 & _ & _ & _ & Hls & Hds & ->);
      [|done].
    rewrite Hdf in Hdf0. injection Hdf0 as <-.
    eexists. simpl. rewrite lookup_insert_eq. split; [done|]. simpl.
    split; [done|]. split.
    + intros name Hl Hc. by rewrite !lookup_insert_ne.
    + intros Hwf name col. simpl.
      destruct (decide ("Confidence" = name)) as [<-|?].
      { rewrite lookup_insert_eq. intros [= <-]. unfold confidence_column.
        by rewrite length_fmap. }
      rewrite lookup_insert_ne by done.
      destruct (decide ("Anomaly_Score" = name)) as [<-|?].
      { rewrite lookup_insert_eq. intros [= <-]. unfold label_column.
        by rewrite length_fmap. }
      rewrite lookup_insert_ne by done. apply Hwf.
  - exists df. simpl. done.
  - rewrite Hdf in Hdf0. injection Hdf0 as <-.
    exists df1. simpl. rewrite lookup_insert_eq. split; [done|].
    assert (length (label_column ls) = nrows df) as Hlen.
    { unfold label_column. rewrite length_fmap.
      rewrite (labels_shape sk Hshape _ _ _ _ _ Hfit).
      apply getitem_list_Returned in HX. by rewrite HX. }
    pose proof H1 as H1'.
    rewrite setitem_same_length in H1 by done. injection H1 as <-. simpl.
    split; [done|]. split.
    + intros name Hl _. by rewrite lookup_insert_ne.
    + intros Hwf. by eapply setitem_wf.
Qed.

(** X7: the scorer reads nothing of the table but its three feature
    columns: on two tables with the same number of rows and the same
    [Bytes_Sent], [Bytes_Received] and [Request_Count] columns, whatever
    their other columns, the scoring either completes on both and writes
    the same labels and the same confidences, or stops on both with the
    same error. *)
Theorem scoring_reads_features_only (data : loc) (c : float)
    (w1 w2 : world np) (df1 df2 : DataFrame) :
  heap w1 !! data = Some df1 → heap w2 !! data = Some df2 →
  nrows df1 = nrows df2 →
  (∀ name, name ∈ features → columns df1 !! name = columns df2 !! name) →
  cpu_count w1 = cpu_count w2 →
  match detect_anomalies_try np sk data c w1,
        detect_anomalies_try np sk data c w2 with
  | (Returned _, w1'), (Returned _, w2') =>
      ∃ a b, heap w1' !! data = Some a ∧ heap w2' !! data = Some b
             ∧ is_Some (columns a !! "Anomaly_Score")
             ∧ columns a !! "Anomaly_Score" = columns b !! "Anomaly_Score"
             ∧ is_Some (columns a !! "Confidence")
             ∧ columns a !! "Confidence" = columns b !! "Confidence"
  | (Raised e1, _), (Raised e2, _) => e1 = e2
  | _, _ => False
  end.
Proof.
  intros Hdf1 Hdf2 Hrows Hcols Hcpu.
  unfold detect_anomalies_try, bind, deref, lift, setitem_at, ret, os_cpu_count.
  fold (model_of c).
  rewrite Hdf1, Hdf2, <- (getitem_list_ext df1 df2 features Hrows Hcols), <- Hcpu.
  destruct (getitem_list df1 features) as [X|e0]; [|done].
  destruct (fit_predict sk (model_of c) (cpu_count w1) X) as [[m ls]|e0];
    [|done].
  rewrite Hdf1, Hdf2. simpl.
  pose proof (setitem_agree df1 df2 "Anomaly_Score" (label_column ls) Hrows) as H1.
  destruct (setitem df1 "Anomaly_Score" (label_column ls)) as [a1|e1],
    (setitem df2 "Anomaly_Score" (label_column ls)) as [b1|e2]; try done.
  destruct H1 as (Hrows1 & Ha1 & Hb1 & _). simpl.
  destruct (decision_function sk m (cpu_count w1) X) as [ds|e0]; [|done].
  rewrite !lookup_insert_eq.
  pose proof (setitem_agree a1 b1 "Confidence" (confidence_column ds) Hrows1)
    as H2.
  destruct (setitem a1 "Confidence" (confidence_column ds)) as [a2|e1] eqn:Hs2,
    (setitem b1 "Confidence" (confidence_column ds)) as [b2|e2]; try done.
  destruct H2 as (_ & Ha2 & Hb2 & Hother). simpl.
  exists a2, b2. rewrite !lookup_insert_eq.
  specialize (Hother "Anomaly_Score"). rewrite Ha1, Hb1 in Hother.
  specialize (Hother eq_refl).
  split; [done|]. split; [done|]. split.
  { apply (setitem_other_is_Some _ _ _ "Anomaly_Score") in Hs2; [|done].
    apply Hs2. rewrite Ha1. by eexists. }
  split; [done|]. rewrite Ha2, Hb2. split; [by eexists | done].
Qed.

End ScorerTable.


(** ** More about the generator and its cache *)

Section LoaderCache.

Context (np : NumpyRandom).

Local Ltac by_column name :=
  repeat match goal with
  | |- context [<[?k := _]> _ !! name] =>
      destruct (decide (k = name)) as [<-|?];
      [rewrite lookup_insert_eq | rewrite lookup_insert_ne by done]
  end.

(** The shape of a table the generator has built, whatever the library
    drew. *)
Lemma generated_shape (now samples : Z) (df : DataFrame) :
  generated np now samples = Returned (Some df) →
  nrows df = Z.to_nat samples ∧ wf_frame df
  ∧ (∀ name, is_Some (columns df !! name) ↔ name ∈ base_columns).
Proof.
  intros Hgen. apply generated_Returned in Hgen.
  destruct Hgen as (ips & sent & recv & reqs & ports & g1 & g2 & g3 & g4 & g5
                    & _ & _ & _ & _ & _ & Hips & Hsent & Hrecv & Hreqs & Hports & [= ->]).
  split; [done|]. split.
  - intros name col. simpl. by_column name; try (intros [= <-]);
      rewrite ?length_fmap, ?timestamps_from_length; done.
  - intros name. simpl. split.
    + by_column name; unfold base_columns; intros Hsome;
        try (apply list_elem_of_In; simpl; tauto).
      rewrite lookup_empty in Hsome. by destruct Hsome.
    + unfold base_columns. intros Hin.
      repeat (apply elem_of_cons in Hin as [->|Hin];
              [repeat (rewrite lookup_insert_ne by done);
               rewrite lookup_insert_eq; by eexists|]).
      by apply elem_of_nil in Hin.
Qed.

(** What a sound cache holds: a table of the generator and no message, or
    no table and the message of the error that stopped the generator. *)
Lemma cache_sound_entry (w : world np) (samples : Z) (value : option DataFrame)
    (messages : list ui_event) :
  cache_sound np w →
  data_cache w !! samples = Some (value, messages) →
  (∃ now df, value = Some df ∧ messages = []
             ∧ generated np now samples = Returned (Some df))
  ∨ (∃ now e, value = None
              ∧ messages = [EvError "Error loading data: " e]
              ∧ generated np now samples = Raised e).
Proof.
  intros Hsound Hc. destruct (Hsound _ _ _ Hc) as (w0 & w0' & Hbody & H0 & H0').
  rewrite load_data_body_generated in Hbody.
  destruct (generated np (clock w0) samples) as [v|e] eqn:Hgen.
  - injection Hbody as <- <-. simpl in H0'. rewrite H0 in H0'. subst messages.
    destruct (generated_Some np _ _ _ Hgen) as [df ->].
    left. by exists (clock w0), df.
  - injection Hbody as <- <-. simpl in H0'. rewrite H0 in H0'. subst messages.
    right. by exists (clock w0), e.
Qed.

(** X1: whatever the library draws, a table [load_data] builds is
    rectangular, has as many rows as samples were asked for, and has
    exactly the six columns [Timestamp], [IP_Address], [Bytes_Sent],
    [Bytes_Received], [Request_Count] and [Port]; building it displays
    nothing. *)
Theorem generated_table_shape (samples : Z) (w w' : world np) (df : DataFrame) :
  load_data_body np samples w = (Returned (Some df), w') →
  nrows df = Z.to_nat samples ∧ wf_frame df
  ∧ (∀ name, is_Some (columns df !! name) ↔ name ∈ base_columns)
  ∧ screen w' = screen w.
Proof.
  rewrite load_data_body_generated.
  destruct (generated np (clock w) samples) as [value|e] eqn:Hgen;
    [|discriminate].
  intros [= -> <-]. apply generated_shape in Hgen as (? & ? & ?). done.
Qed.

(** X2: [load_data] re-seeds the process-wide random generator: after
    its body has run, the generator is in a state that depends on the
    sample count only, not on the state it was in, nor on the clock; and
    the body changes nothing else in the process but the screen. *)
Theorem load_data_body_reseeds (samples : Z) :
  (∀ w1 w2 : world np,
     np_state (load_data_body np samples w1).2
     = np_state (load_data_body np samples w2).2)
  ∧ (∀ w : world np,
       heap (load_data_body np samples w).2 = heap w
       ∧ data_cache (load_data_body np samples w).2 = data_cache w
       ∧ clock (load_data_body np samples w).2 = clock w
       ∧ cpu_count (load_data_body np samples w).2 = cpu_count w).
Proof.
  split.
  - intros w1 w2. rewrite !load_data_body_generated.
    destruct (generated_any_clock np (clock w1) (clock w2) samples) as [_ Hst].
    destruct (generated np (clock w1) samples), (generated np (clock w2) samples);
      simpl; exact Hst.
  - intros w. rewrite load_data_body_generated.
    by destruct (generated np (clock w) samples).
Qed.

(** X3: with a sound cache, [load_data] never raises, and what it
    returns tells what it displayed: when it returns a table, that table
    lives in a new object, no other object is touched and nothing is
    displayed; when it returns [None], no object is touched and exactly one
    message is displayed, the error that stopped the generator. *)
Theorem load_data_table_or_message (samples : Z) (w : world np) :
  cache_sound np w →
  ∃ value w', load_data np samples w = (Returned value, w')
    ∧ match value with
      | Some l =>
          heap w !! l = None
          ∧ (∃ df, heap w' = <[l := df]> (heap w)
                   ∧ nrows df = Z.to_nat samples)
          ∧ screen w' = screen w
      | None =>
          heap w' = heap w
          ∧ ∃ e, screen w' = (screen w ++ [EvError "Error loading data: " e])%list
      end.
Proof.
  intros Hsound.
  assert (heap w !! fresh (dom (heap w)) = None) as Hfresh
    by (apply not_elem_of_dom, is_fresh).
  destruct (data_cache w !! samples) as [[value messages]|] eqn:Hc.
  - destruct (cache_sound_entry _ _ _ _ Hsound Hc)
      as [(now & df & -> & -> & Hgen) | (now & e & -> & -> & Hgen)].
    + rewrite (load_data_hit _ _ _ _ _ Hc). do 2 eexists. split; [done|].
      simpl. split; [done|]. rewrite app_nil_r. split; [|done].
      exists df. split; [done|]. by apply generated_shape in Hgen as (? & _).
    + rewrite (load_data_hit_None _ _ _ _ Hc). do 2 eexists. split; [done|].
      simpl. split; [done|]. by exists e.
  - rewrite (load_data_miss _ _ _ Hc).
    destruct (generated np (clock w) samples) as [[df|]|e] eqn:Hgen.
    + do 2 eexists. split; [done|]. simpl. split; [done|].
      rewrite app_nil_r. split; [|done].
      exists df. split; [done|]. by apply generated_shape in Hgen as (? & _).
    + by apply generated_Some in Hgen as [? ?].
    + do 2 eexists. split; [done|]. simpl. split; [done|]. by exists e.
Qed.

End LoaderCache.

(** ** The dashboard, step by step *)

Section DashboardSteps.

Context (np : NumpyRandom) (sk : Sklearn).

Lemma create_visualizations_unfold (data : loc) (anomalies : DataFrame)
    (w : world np) :
  create_visualizations np data anomalies w
  = match heap w !! data with
    | None => (Raised (LibraryError "no such object"),
               set_screen (screen w ++ [EvColumns 2]) w)
    | Some df =>
        if px_columns_ok df scatter_columns then
          if px_columns_ok anomalies line_columns then
            (Returned tt,
             set_screen (screen w ++ [EvColumns 2; EvPlotlyChart (scatter_chart df);
                                      EvPlotlyChart (line_chart anomalies)]) w)
          else
            (Raised (ValueError "Value is not the name of a column in 'data_frame'"),
             set_screen (screen w ++ [EvColumns 2; EvPlotlyChart (scatter_chart df)]) w)
        else
          (Raised (ValueError "Value is not the name of a column in 'data_frame'"),
           set_screen (screen w ++ [EvColumns 2]) w)
    end.
Proof.
  unfold create_visualizations, bind, show, deref, lift, px_scatter, px_line.
  simpl. destruct (heap w !! data) as [df|]; [|done].
  change (px_columns_ok df _) with (px_columns_ok df scatter_columns).
  destruct (px_columns_ok df scatter_columns); [|done]. simpl.
  change (px_columns_ok anomalies _) with (px_columns_ok anomalies line_columns).
  destruct (px_columns_ok anomalies line_columns); simpl;
    unfold set_screen; simpl; by rewrite <- !app_assoc.
Qed.

Lemma line_chart_columns (df : DataFrame) (mask : list bool) :
  px_columns_ok df scatter_columns = true →
  px_columns_ok (getitem_mask df mask) line_columns = true.
Proof.
  unfold px_columns_ok, scatter_columns, line_columns. simpl.
  rewrite !getitem_mask_has_column.
  intros H. repeat (apply andb_prop in H as [? H]).
  repeat (apply andb_true_intro; split); done.
Qed.

(** Steps of a computation whose outcome is known. *)
Lemma bind_Returned {A B : Type} (m : M np A) (k : A → M np B) (w w' : world np)
    (a : A) :
  m w = (Returned a, w') → bind np m k w = k a w'.
Proof. intros H. unfold bind. by rewrite H. Qed.

Lemma bind_Raised {A B : Type} (m : M np A) (k : A → M np B) (w w' : world np)
    (e : exn) :
  m w = (Raised e, w') → bind np m k w = (Raised e, w').
Proof. intros H. unfold bind. by rewrite H. Qed.

Lemma bind_show {A : Type} (ev : ui_event) (k : unit → M np A) (w : world np) :
  bind np (show np ev) k w = k tt (set_screen (screen w ++ [ev]) w).
Proof. reflexivity. Qed.

Lemma set_screen_twice (s s' : list ui_event) (w : world np) :
  set_screen s (set_screen s' w) = set_screen s w.
Proof. reflexivity. Qed.

Lemma screen_set_screen (s : list ui_event) (w : world np) :
  screen (set_screen s w) = s.
Proof. reflexivity. Qed.

Lemma heap_set_screen (s : list ui_event) (w : world np) :
  heap (set_screen s w) = heap w.
Proof. reflexivity. Qed.

Lemma clock_set_screen (s : list ui_event) (w : world np) :
  clock (set_screen s w) = clock w.
Proof. reflexivity. Qed.

Lemma deref_Some (l : loc) (df : DataFrame) (w : world np) :
  heap w !! l = Some df → deref np l w = (Returned df, w).
Proof. intros H. unfold deref. by rewrite H. Qed.

Local Ltac show_step :=
  rewrite bind_show; cbv beta;
  rewrite ?set_screen_twice, ?screen_set_screen.

(** [main] from the scoring on: where it can stop, and what it has
    displayed by then. *)
Lemma main_with_data_unfold (ctl : controls) (data : loc) (w : world np) :
  main_with_data np sk ctl data w
  = let w1 := (detect_anomalies np sk data (contamination_level ctl) w).2 in
    match heap w1 !! data with
    | None => (Raised (LibraryError "no such object"), w1)
    | Some analyzed =>
        match columns analyzed !! "Anomaly_Score" with
        | None => (Raised (KeyError ["Anomaly_Score"]), w1)
        | Some score =>
            let anomalies := getitem_mask analyzed (eq_minus_one <$> score) in
            if decide (nrows analyzed = 0%nat) then
              (Raised ZeroDivisionError,
               set_screen (screen w1 ++ overview_counts analyzed anomalies) w1)
            else if px_columns_ok analyzed scatter_columns then
              (Returned tt,
               set_screen (screen w1 ++ dashboard analyzed anomalies (clock w1)) w1)
            else
              (Raised (ValueError "Value is not the name of a column in 'data_frame'"),
               set_screen
                 (screen w1 ++ overview_counts analyzed anomalies
                  ++ [EvMetric "Anomaly Rate"
                        (MetricPercent (nrows anomalies) (nrows analyzed));
                      EvColumns 2]) w1)
        end
    end.
Proof.
  unfold main_with_data.
  destruct (detect_anomalies_in_place np sk data (contamination_level ctl) w)
    as (w1 & Hrun & _).
  rewrite Hrun, (bind_Returned _ _ _ _ _ Hrun). cbv zeta beta. simpl snd.
  destruct (heap w1 !! data) as [analyzed|] eqn:Hobj.
  2:{ apply bind_Raised. unfold deref. by rewrite Hobj. }
  rewrite (bind_Returned _ _ _ _ _ (deref_Some _ _ _ Hobj)).
  destruct (columns analyzed !! "Anomaly_Score") as [score|] eqn:Hscore.
  2:{ apply bind_Raised. unfold lift, getitem. by rewrite Hscore. }
  rewrite (bind_Returned (lift np (getitem analyzed "Anomaly_Score")) _ w1 w1 score)
    by (unfold lift, getitem; by rewrite Hscore).
  do 4 show_step.
  rewrite (bind_Returned (deref np data) _ _ _ analyzed)
    by (apply deref_Some; exact Hobj).
  do 2 show_step.
  unfold anomaly_rate.
  destruct (decide (nrows analyzed = 0%nat)) as [Hzero|Hrows].
  { rewrite (bind_Raised (lift np (Raised ZeroDivisionError)) _ _ _ _ eq_refl).
    unfold overview_counts. rewrite <- !app_assoc. reflexivity. }
  rewrite (bind_Returned (lift np (Returned _)) _ _ _ _ eq_refl).
  show_step.
  pose proof (create_visualizations_unfold data
                (getitem_mask analyzed (eq_minus_one <$> score))) as Hcv.
  match goal with
  | |- bind np (create_visualizations np _ _) _ ?w0 = _ =>
      specialize (Hcv w0); rewrite heap_set_screen, Hobj, screen_set_screen in Hcv
  end.
  destruct (px_columns_ok analyzed scatter_columns) eqn:Hcols.
  - rewrite line_chart_columns in Hcv by done.
    rewrite (bind_Returned _ _ _ _ _ Hcv).
    rewrite ?set_screen_twice.
    do 2 show_step.
    rewrite (bind_Returned (deref np data) _ _ _ analyzed)
      by (apply deref_Some; exact Hobj).
    do 5 show_step.
    unfold bind, datetime_now, show.
    rewrite ?set_screen_twice, ?screen_set_screen, ?clock_set_screen.
    unfold dashboard, overview_counts. rewrite <- !app_assoc. reflexivity.
  - rewrite (bind_Raised _ _ _ _ _ Hcv). rewrite ?set_screen_twice.
    unfold overview_counts. rewrite <- !app_assoc. reflexivity.
Qed.

End DashboardSteps.
(** ** The selection of the anomalies *)

(** X8: the table of anomalies [main] selects from a rectangular scored
    table is rectangular, has one row per label equal to -1, so no more
    rows than the table, keeps every column of the table as a
    subsequence, rows in their order, and has only -1 labels. *)
Theorem anomalies_selection (df : DataFrame) (score : column) :
  wf_frame df →
  columns df !! "Anomaly_Score" = Some score →
  let anomalies := getitem_mask df (eq_minus_one <$> score) in
  wf_frame anomalies
  ∧ nrows anomalies = length (List.filter eq_minus_one score)
  ∧ (nrows anomalies ≤ nrows df)%nat
  ∧ columns anomalies !! "Anomaly_Score" = Some (List.filter eq_minus_one score)
  ∧ (∀ name col, columns df !! name = Some col →
       ∃ col', columns anomalies !! name = Some col' ∧ sublist col' col)
  ∧ (∀ name, columns df !! name = None → columns anomalies !! name = None).
Proof.
  intros Hwf Hscore. cbv zeta.
  assert (nrows (getitem_mask df (eq_minus_one <$> score))
          = length (List.filter eq_minus_one score)) as Hrows.
  { unfold getitem_mask. simpl. rewrite <- boolean_mask_filter.
    apply boolean_mask_length. rewrite length_seq. symmetry. by eapply Hwf. }
  split; [by apply getitem_mask_wf|]. split; [done|]. split.
  { rewrite Hrows, <- (Hwf _ _ Hscore). apply List.filter_length_le. }
  unfold getitem_mask. simpl. split.
  { by rewrite lookup_fmap, Hscore, <- boolean_mask_filter. }
  split.
  - intros name col Hcol. rewrite lookup_fmap, Hcol. eexists. split; [done|].
    apply boolean_mask_sublist.
  - intros name Hnone. by rewrite lookup_fmap, Hnone.
Qed.

Section MainRuns.

Context (np : NumpyRandom) (sk : Sklearn).

Lemma eq_minus_one_label (d : float) :
  eq_minus_one (CInt (label_of_score d)) = (d <? 0)%float.
Proof. unfold label_of_score. by destruct (d <? 0)%float. Qed.

(** X9: when the estimator labels by the sign of its scores, the
    anomalies [main] selects after a completed scoring are exactly the rows
    of negative confidence, in their order. *)
Theorem anomalies_have_negative_confidence (data l : loc) (c : float)
    (w w' : world np) :
  SklearnSign sk →
  detect_anomalies_try np sk data c w = (Returned l, w') →
  ∃ analyzed score ds,
    heap w' !! data = Some analyzed
    ∧ columns analyzed !! "Anomaly_Score" = Some score
    ∧ columns analyzed !! "Confidence" = Some (CFloat <$> ds)
    ∧ columns (getitem_mask analyzed (eq_minus_one <$> score)) !! "Confidence"
      = Some (CFloat <$> List.filter (λ d, (d <? 0)%float) ds)
    ∧ nrows (getitem_mask analyzed (eq_minus_one <$> score))
      = length (List.filter (λ d, (d <? 0)%float) ds).
Proof.
  intros Hsign Htry.
  apply detect_anomalies_try_Returned
    in Htry as (df & X & m & ls & ds & df1 & df2 & Hdf & HX & Hfit & H1 & Hds & H2 & -> & ->).
  pose proof (labels_follow_scores sk Hsign _ _ _ _ _ _ Hfit Hds) as ->.
  assert (nrows df1 = length ds
          ∧ columns df1 !! "Anomaly_Score"
            = Some (label_column (label_of_score <$> ds))) as [Hn1 Hc1].
  { unfold setitem in H1. repeat case_decide; try discriminate;
      injection H1 as <-; simpl; rewrite lookup_insert_eq;
      unfold label_column in *; rewrite ?length_fmap in *; split; congruence. }
  rewrite setitem_same_length in H2
    by (unfold confidence_column; by rewrite length_fmap).
  injection H2 as <-.
  assert (eq_minus_one <$> label_column (label_of_score <$> ds)
          = (λ d, (d <? 0)%float) <$> ds) as Hmask.
  { unfold label_column. rewrite <- !list_fmap_compose.
    apply list_fmap_ext. intros i d _. apply eq_minus_one_label. }
  eexists _, (label_column (label_of_score <$> ds)), ds.
  simpl. rewrite lookup_insert_eq. split; [done|]. simpl.
  rewrite lookup_insert_ne by done. split; [done|].
  rewrite lookup_insert_eq. split; [done|].
  unfold getitem_mask. simpl. rewrite lookup_fmap, lookup_insert_eq, Hmask.
  simpl. unfold confidence_column. rewrite boolean_mask_fmap.
  split; [done|].
  rewrite <- (boolean_mask_filter (λ d, (d <? 0)%float) ds).
  apply boolean_mask_length. by rewrite length_seq.
Qed.




(** X12: when the scoring stops before the labels are written on a table
    that has no [Anomaly_Score] column, as a table that was just loaded,
    [main] goes on with that table and raises [KeyError] for
    [Anomaly_Score]: after the scorer's error message it displays nothing,
    no tab, no metric, no chart. *)
Theorem main_stops_on_unscored_table (ctl : controls) (data : loc)
    (w : world np) (df : DataFrame) (e : exn) :
  fails_before_labels np sk data (contamination_level ctl) w e →
  heap w !! data = Some df →
  columns df !! "Anomaly_Score" = None →
  main_with_data np sk ctl data w
  = (Raised (KeyError ["Anomaly_Score"]),
     set_screen (screen w ++ [EvError "Error in anomaly detection: " e]) w).
Proof.
  intros Hfail Hdf Hnone. rewrite main_with_data_unfold.
  apply fails_before_labels_try in Hfail.
  rewrite (detect_anomalies_handles _ _ _ _ _ _ _ Hfail). cbv zeta. simpl.
  by rewrite Hdf, Hnone.
Qed.


End MainRuns.

(** ** A whole run of the script *)

Section ScriptRuns.

Context (np : NumpyRandom) (sk : Sklearn).

(** The two ways a call of [load_data] ends when the cache is sound. *)
Lemma load_data_cases (samples : Z) (w : world np) :
  cache_sound np w →
  (∃ now df g cache,
      generated np now samples = Returned (Some df)
      ∧ cache !! samples = Some (Some df, [])
      ∧ (∀ n, n ≠ samples → cache !! n = data_cache w !! n)
      ∧ load_data np samples w
        = (Returned (Some (fresh (dom (heap w)))),
           mkWorld (<[fresh (dom (heap w)) := df]> (heap w)) (screen w) g cache
             (clock w) (cpu_count w)))
  ∨ (∃ now e g cache,
        generated np now samples = Raised e
        ∧ cache !! samples = Some (None, [EvError "Error loading data: " e])
        ∧ (∀ n, n ≠ samples → cache !! n = data_cache w !! n)
        ∧ load_data np samples w
          = (Returned None,
             mkWorld (heap w) (screen w ++ [EvError "Error loading data: " e])
               g cache (clock w) (cpu_count w))).
Proof.
  intros Hsound.
  destruct (data_cache w !! samples) as [[value messages]|] eqn:Hc.
  - destruct (cache_sound_entry _ _ _ _ _ Hsound Hc)
      as [(now & df & -> & -> & Hgen) | (now & e & -> & -> & Hgen)].
    + left. exists now, df, (np_state w), (data_cache w).
      rewrite (load_data_hit _ _ _ _ _ Hc), app_nil_r. done.
    + right. exists now, e, (np_state w), (data_cache w).
      rewrite (load_data_hit_None _ _ _ _ Hc). done.
  - rewrite (load_data_miss _ _ _ Hc).
    destruct (generated np (clock w) samples) as [[df|]|e] eqn:Hgen.
    + left. exists (clock w), df. do 2 eexists. rewrite app_nil_r.
      split; [done|]. split; [|split; [|done]].
      * by rewrite lookup_insert_eq.
      * intros n Hne. by rewrite lookup_insert_ne.
    + by apply generated_Some in Hgen as [? ?].
    + right. exists (clock w), e. do 2 eexists.
      split; [done|]. split; [|split; [|done]].
      * by rewrite lookup_insert_eq.
      * intros n Hne. by rewrite lookup_insert_ne.
Qed.

Lemma cache_sound_ext (w1 w2 : world np) :
  data_cache w1 = data_cache w2 → cache_sound np w1 → cache_sound np w2.
Proof. intros Heq Hsound n value messages. rewrite <- Heq. apply Hsound. Qed.

(** What [main] can change in the process once it holds a table: that
    table and the screen. *)
Lemma main_with_data_world (ctl : controls) (data : loc) (w : world np) :
  ∃ r h shown,
    main_with_data np sk ctl data w
    = (r, mkWorld h (screen w ++ shown) (np_state w) (data_cache w) (clock w)
            (cpu_count w))
    ∧ (∀ other, other ≠ data → h !! other = heap w !! other).
Proof.
  rewrite main_with_data_unfold. cbv zeta.
  destruct (detect_anomalies_world np sk data (contamination_level ctl) w)
    as (h & msgs & -> & Hother & _). simpl.
  destruct (h !! data) as [analyzed|].
  2:{ by exists (Raised (LibraryError "no such object")), h, msgs. }
  destruct (columns analyzed !! "Anomaly_Score") as [score|].
  2:{ by exists (Raised (KeyError ["Anomaly_Score"])), h, msgs. }
  destruct (decide (nrows analyzed = 0%nat)).
  { eexists _, h, _. unfold set_screen. simpl. rewrite <- app_assoc. done. }
  destruct (px_columns_ok analyzed scatter_columns);
    eexists _, h, _; unfold set_screen; simpl; rewrite <- app_assoc; done.
Qed.

Lemma base_columns_not_scores (now samples : Z) (df : DataFrame) :
  generated np now samples = Returned (Some df) →
  columns df !! "Anomaly_Score" = None ∧ columns df !! "Confidence" = None.
Proof.
  intros Hgen. apply generated_shape in Hgen as (_ & _ & Hcols).
  split; apply eq_None_not_Some; rewrite Hcols; unfold base_columns;
    intros Hin; apply list_elem_of_In in Hin; simpl in Hin;
    repeat destruct Hin as [?|Hin]; done.
Qed.

(** X4: scoring the table [load_data] returned does not reach the cache:
    after the scorer has run on that object, however it ended, the next
    [load_data] with the same sample size returns another object, and
    that object holds the table as it was loaded, without score columns;
    the scored object is left as the scorer left it. *)
Theorem load_data_copy_not_scored (samples : Z) (c : float) (w w1 : world np)
    (l1 : loc) :
  cache_sound np w →
  load_data np samples w = (Returned (Some l1), w1) →
  ∃ df l2 w3,
    heap w1 !! l1 = Some df
    ∧ load_data np samples (detect_anomalies np sk l1 c w1).2
      = (Returned (Some l2), w3)
    ∧ l2 ≠ l1
    ∧ heap w3 !! l2 = Some df
    ∧ columns df !! "Anomaly_Score" = None
    ∧ columns df !! "Confidence" = None
    ∧ heap w3 !! l1 = heap (detect_anomalies np sk l1 c w1).2 !! l1.
Proof.
  intros Hsound Hload.
  destruct (load_data_cases samples w Hsound)
    as [(now & df & g & cache & Hgen & Hc & _ & Hrun)
       | (now & e & g & cache & _ & _ & _ & Hrun)];
    rewrite Hrun in Hload; [|discriminate].
  injection Hload as <- <-.
  set (l1 := fresh (dom (heap w))).
  set (w1 := mkWorld (<[l1 := df]> (heap w)) (screen w) g cache (clock w)
               (cpu_count w)).
  destruct (detect_anomalies_world np sk l1 c w1) as (h & msgs & -> & _ & Hsame).
  simpl in Hsame. rewrite lookup_insert_eq in Hsame.
  assert (is_Some (h !! l1)) as Hl1 by (apply Hsame; by eexists).
  simpl snd.
  erewrite load_data_hit by (simpl; exact Hc).
  exists df. do 2 eexists. simpl. rewrite lookup_insert_eq.
  split; [done|]. split; [done|].
  assert (fresh (dom h) ≠ l1) as Hne.
  { intros Heq. apply (is_fresh (dom h)). rewrite Heq. by apply elem_of_dom. }
  split; [done|]. simpl. rewrite lookup_insert_eq. split; [done|].
  destruct (base_columns_not_scores _ _ _ Hgen) as [? ?].
  split; [done|]. split; [done|]. by rewrite lookup_insert_ne.
Qed.

Lemma generated_features (now samples : Z) (df : DataFrame) :
  generated np now samples = Returned (Some df) →
  getitem_list df features
  = Returned (mkFrame (nrows df) (restrict_columns features (columns df))).
Proof.
  intros Hgen. apply generated_shape in Hgen as (_ & _ & Hcols).
  assert (∀ name, name ∈ base_columns → has_column df name = true) as Hhas.
  { intros name Hin. unfold has_column. apply bool_decide_eq_true.
    by apply Hcols. }
  unfold getitem_list, features. simpl.
  rewrite !Hhas by (apply list_elem_of_In; simpl; tauto). done.
Qed.

(** What any call of [load_data] does to the process. *)
Lemma load_data_world (samples : Z) (w : world np) :
  ∃ value h msgs g cache,
    load_data np samples w
    = (Returned value,
       mkWorld h (screen w ++ msgs) g cache (clock w) (cpu_count w))
    ∧ (∀ l df, heap w !! l = Some df → h !! l = Some df)
    ∧ is_Some (cache !! samples)
    ∧ (∀ n, n ≠ samples → cache !! n = data_cache w !! n)
    ∧ (∀ l, value = Some l → heap w !! l = None).
Proof.
  assert (heap w !! fresh (dom (heap w)) = None) as Hfresh
    by (apply not_elem_of_dom, is_fresh).
  assert (∀ df0 l df, heap w !! l = Some df →
            <[fresh (dom (heap w)) := df0]> (heap w) !! l = Some df) as Hkeep.
  { intros df0 l df Hl. rewrite lookup_insert_ne; [done|]. congruence. }
  destruct (data_cache w !! samples) as [[[df|] messages]|] eqn:Hc.
  - rewrite (load_data_hit _ _ _ _ _ Hc). do 5 eexists. split; [done|].
    split; [apply Hkeep|]. rewrite Hc. split; [by eexists|].
    split; [done|]. by intros l [= <-].
  - rewrite (load_data_hit_None _ _ _ _ Hc). do 5 eexists.
    split; [reflexivity|]. split; [done|]. rewrite Hc.
    split; [by eexists|]. done.
  - rewrite (load_data_miss _ _ _ Hc).
    destruct (generated np (clock w) samples) as [[df|]|e];
      do 5 eexists; (split; [reflexivity|]);
      rewrite lookup_insert_eq;
      (split; [first [apply Hkeep | done]|]); (split; [by eexists|]);
      (split; [intros n Hne; by rewrite lookup_insert_ne|]);
      first [by intros l [= <-] | done].
Qed.

(** X13: when the estimator cannot be fitted, a run of the script ends
    without raising, and below the header it displays either the error of
    the generator alone, or the scorer's error followed by an "unexpected
    error" for the missing [Anomaly_Score] column; no tab, metric,
    chart or status line is displayed. *)
Theorem run_script_when_fit_fails (ctl : controls) (w : world np) (e : exn) :
  cache_sound np w →
  (∀ k X, fit_predict sk (model_of (contamination_level ctl)) k X = Raised e) →
  ∃ w', run_script np sk ctl w = (Returned tt, w')
    ∧ ((∃ e0, screen w'
              = (screen w ++ main_header
                 ++ [EvError "Error loading data: " e0])%list)
       ∨ screen w'
         = (screen w ++ main_header
            ++ [EvError "Error in anomaly detection: " e;
                EvError "An unexpected error occurred: "
                  (KeyError ["Anomaly_Score"])])%list).
Proof.
  intros Hsound Hfit. unfold run_script, try_except. rewrite main_unfold.
  set (w0 := set_screen (screen w ++ main_header) w).
  assert (cache_sound np w0) as Hsound0 by (by eapply cache_sound_ext).
  destruct (load_data_cases (sample_size ctl) w0 Hsound0)
    as [(now & df & g & cache & Hgen & _ & _ & ->)
       | (now & e0 & g & cache & _ & _ & _ & ->)].
  - set (l := fresh (dom (heap w0))).
    set (w1 := mkWorld _ _ _ _ _ _).
    assert (heap w1 !! l = Some df) as Hobj
      by (unfold w1; simpl; by rewrite lookup_insert_eq).
    destruct (base_columns_not_scores _ _ _ Hgen) as [Hnone _].
    assert (fails_before_labels np sk l (contamination_level ctl) w1 e) as Hfail.
    { eapply fails_fit; [exact Hobj | by eapply generated_features | apply Hfit]. }
    apply fails_before_labels_try in Hfail.
    rewrite main_with_data_unfold.
    rewrite (detect_anomalies_handles _ _ _ _ _ _ _ Hfail). cbv zeta. cbn [snd].
    rewrite heap_set_screen, Hobj, Hnone.
    eexists. split; [reflexivity|]. right.
    unfold w1, w0. cbn. rewrite <- !app_assoc. reflexivity.
  - eexists. split; [reflexivity|]. left. exists e0. cbn.
    by rewrite <- app_assoc.
Qed.

(** X15: a run of the script never raises.  It displays the header first
    and erases nothing already displayed; it leaves an entry for the chosen
    sample size in the cache, changes no other entry and keeps the cache
    sound; it does not touch the clock; and every table object that
    existed before the run is left as it was, since the run works on an
    object of its own. *)
Theorem run_script_invariants (ctl : controls) (w : world np) :
  ∃ w', run_script np sk ctl w = (Returned tt, w')
    ∧ (cache_sound np w → cache_sound np w')
    ∧ is_Some (data_cache w' !! sample_size ctl)
    ∧ (∀ n, n ≠ sample_size ctl → data_cache w' !! n = data_cache w !! n)
    ∧ (∃ shown, screen w' = (screen w ++ main_header ++ shown)%list)
    ∧ clock w' = clock w ∧ cpu_count w' = cpu_count w
    ∧ (∀ l df, heap w !! l = Some df → heap w' !! l = Some df).
Proof.
  unfold run_script, try_except. rewrite main_unfold.
  set (w0 := set_screen (screen w ++ main_header) w).
  pose proof (load_data_cache_sound np (sample_size ctl) w0) as Hkeeps.
  destruct (load_data_world (sample_size ctl) w0)
    as (value & h & msgs & g & cache & Hload & Hheap & Hentry & Hothers & Hnew).
  rewrite Hload in Hkeeps |- *.
  assert (cache_sound np w → cache_sound np w0) as Hsound0
    by (apply cache_sound_ext; reflexivity).
  set (w1 := mkWorld h (screen w0 ++ msgs) g cache (clock w0) (cpu_count w0)) in *.
  assert (∀ r (w2 : world np) shown,
            data_cache w2 = cache → clock w2 = clock w → cpu_count w2 = cpu_count w →
            screen w2 = (screen w1 ++ shown)%list →
            (∀ l df, heap w !! l = Some df → heap w2 !! l = Some df) →
            ∃ w', match r with
                  | Returned a => (Returned a, w2)
                  | Raised e =>
                      st_error np "An unexpected error occurred: " e w2
                  end = (Returned tt, w')
              ∧ (cache_sound np w → cache_sound np w')
              ∧ is_Some (data_cache w' !! sample_size ctl)
              ∧ (∀ n, n ≠ sample_size ctl →
                   data_cache w' !! n = data_cache w !! n)
              ∧ (∃ shown, screen w' = (screen w ++ main_header ++ shown)%list)
              ∧ clock w' = clock w ∧ cpu_count w' = cpu_count w
              ∧ (∀ l df, heap w !! l = Some df → heap w' !! l = Some df))
    as Hend.
  { intros r w2 shown Hcache Hclock Hcpu Hscreen Hobjects.
    assert (cache_sound np w → cache_sound np w2) as Hs2.
    { intros Hs. apply (cache_sound_ext w1); [by rewrite Hcache|].
      apply Hkeeps. by apply Hsound0. }
    destruct r as [[]|e].
    - exists w2. split; [done|]. split; [done|]. rewrite Hcache.
      split; [done|]. split; [done|]. split; [|done].
      exists (msgs ++ shown)%list. rewrite Hscreen. unfold w1, w0. cbn.
      by rewrite <- !app_assoc.
    - eexists. split; [reflexivity|]. cbn. rewrite Hcache.
      split; [intros Hs; apply (cache_sound_ext w2); [reflexivity | by apply Hs2]|].
      split; [done|]. split; [done|]. split; [|done].
      exists (msgs ++ shown ++ [EvError "An unexpected error occurred: " e])%list.
      rewrite Hscreen. unfold w1, w0. cbn. by rewrite <- !app_assoc. }
  destruct value as [data|].
  - destruct (main_with_data_world ctl data w1) as (r & h' & shown & -> & Hother).
    assert (heap w !! data = None) as Hdata by (apply (Hnew data eq_refl)).
    apply (Hend r _ shown); try reflexivity.
    intros l df Hl. cbn. rewrite Hother.
    + apply Hheap. exact Hl.
    + intros ->. rewrite Hdata in Hl. discriminate.
  - apply (Hend (Returned tt) w1 []); try reflexivity.
    + unfold w1. cbn. by rewrite app_nil_r.
    + exact Hheap.
Qed.

(** X16: with the libraries keeping their contracts, a sound cache, a
    positive sample size and a contamination in (0, 0.5], a run of the
    script displays no error: below the header it displays the whole
    dashboard for a table of as many rows as samples were asked for, which
    lives in an object the run created and which carries the labels. *)
Theorem run_script_renders_dashboard (ctl : controls) (w : world np) :
  NumpyContract np → SklearnShapes sk → SklearnFits sk →
  cache_sound np w →
  0 < sample_size ctl →
  (0 <? contamination_level ctl)%float = true →
  (contamination_level ctl <=? 0.5)%float = true →
  ∃ l analyzed score w',
    run_script np sk ctl w = (Returned tt, w')
    ∧ heap w !! l = None
    ∧ heap w' !! l = Some analyzed
    ∧ nrows analyzed = Z.to_nat (sample_size ctl)
    ∧ columns analyzed !! "Anomaly_Score" = Some score
    ∧ screen w'
      = (screen w ++ main_header
         ++ dashboard analyzed (getitem_mask analyzed (eq_minus_one <$> score))
              (clock w))%list.
Proof.
  intros Hnp Hshape Hfits Hsound Hpos Hc0 Hc1.
  unfold run_script, try_except. rewrite main_unfold.
  set (w0 := set_screen (screen w ++ main_header) w).
  assert (cache_sound np w0) as Hsound0 by (by eapply cache_sound_ext).
  assert (heap w !! fresh (dom (heap w)) = None) as Hfresh
    by (apply not_elem_of_dom, is_fresh).
  destruct (load_data_cases (sample_size ctl) w0 Hsound0)
    as [(now & df & g & cache & Hgen & _ & _ & ->)
       | (now & e0 & g & cache & Hgen & _ & _ & _)].
  2:{ destruct (generated_table np now (sample_size ctl) Hnp) as (? & Hg & _);
        [lia | congruence]. }
  destruct (generated_table np now (sample_size ctl) Hnp)
    as (df' & Hg & (Hrows & Htable) & _); [lia|].
  rewrite Hgen in Hg. injection Hg as <-.
  destruct Htable as (ts & ips & sent & recv & reqs & ports & Hcols
                      & _ & _ & Hsent & Hrecv & Hreqs & _).
  set (l := fresh (dom (heap w0))).
  set (w1 := mkWorld _ _ _ _ _ _).
  assert (heap w1 !! l = Some df) as Hobj
    by (unfold w1; simpl; by rewrite lookup_insert_eq).
  pose proof (generated_features _ _ _ Hgen) as HX.
  set (X := mkFrame (nrows df) (restrict_columns features (columns df))) in *.
  assert (0 < nrows df)%nat as Hn by lia.
  destruct (fit_succeeds sk Hfits (contamination_level ctl) (cpu_count w1) X)
    as (m & ls & Hfit); [done | done | done | |].
  { intros name Hin. unfold X. cbn [columns nrows].
    rewrite restrict_columns_lookup.
    rewrite decide_True by done. rewrite Hcols. unfold features in Hin.
    apply list_elem_of_In in Hin. simpl in Hin.
    destruct Hin as [<-|[<-|[<-|[]]]]; simpl;
      repeat (rewrite lookup_insert_ne by done); rewrite lookup_insert_eq;
      eexists; (split; [reflexivity|]); congruence. }
  destruct (score_succeeds sk Hfits _ _ _ _ _ Hfit) as (ds & Hds).
  assert (length (label_column ls) = nrows df) as Hls
    by (unfold label_column; rewrite length_fmap;
        apply (labels_shape sk Hshape _ _ _ _ _ Hfit)).
  assert (length (confidence_column ds) = nrows df) as Hlds
    by (unfold confidence_column; rewrite length_fmap;
        apply (scores_shape sk Hshape _ _ _ _ Hds)).
  set (df1 := mkFrame (nrows df)
                (<["Anomaly_Score" := label_column ls]> (columns df))).
  set (df2 := mkFrame (nrows df)
                (<["Confidence" := confidence_column ds]> (columns df1))).
  assert (detect_anomalies_try np sk l (contamination_level ctl) w1
          = (Returned l, set_heap (<[l := df2]> (heap w1)) w1)) as Htry.
  { eapply detect_anomalies_try_run; try done.
    - by apply setitem_same_length.
    - by apply (setitem_same_length df1). }
  pose proof (detect_anomalies_completes _ _ _ _ _ _ _ Htry) as Hrun.
  assert (px_columns_ok df2 scatter_columns = true) as Hok.
  { unfold px_columns_ok, scatter_columns. apply forallb_forall.
    intros name Hin. unfold has_column, df2, df1. apply bool_decide_eq_true.
    cbn [columns]. rewrite Hcols. simpl in Hin.
    destruct Hin as [<-|[<-|[<-|[<-|[<-|[<-|[<-|[]]]]]]]]; simpl;
      repeat (rewrite lookup_insert_ne by done); rewrite lookup_insert_eq;
      by eexists. }
  rewrite main_with_data_unfold, Hrun. cbv zeta. cbn [snd].
  assert (heap (set_heap (<[l := df2]> (heap w1)) w1) !! l = Some df2) as Hobj2
    by (simpl; by rewrite lookup_insert_eq).
  rewrite Hobj2.
  assert (columns df2 !! "Anomaly_Score" = Some (label_column ls)) as Hscore.
  { unfold df2, df1. simpl. rewrite lookup_insert_ne by done.
    by rewrite lookup_insert_eq. }
  rewrite Hscore, Hok.
  destruct (decide (nrows df2 = 0%nat)) as [Hzero|_]; [simpl in Hzero; lia|].
  exists l, df2, (label_column ls). eexists. split; [reflexivity|].
  split; [exact Hfresh|]. cbn [heap set_screen set_heap].
  split; [exact Hobj2|]. split; [exact Hrows|]. split; [exact Hscore|].
  cbn [screen set_screen set_heap]. unfold w1, w0. cbn [screen set_screen clock].
  rewrite <- !app_assoc. reflexivity.
Qed.

End ScriptRuns.

(** ** The concrete instance, continued *)

Lemma demo_sklearn_fits : SklearnFits Demo.sklearn.
Proof.
  split; simpl.
  - intros c k X _ _ _ Hcols.
    destruct (Hcols "Request_Count") as (zs & Hcol & Hlen).
    { apply list_elem_of_In. simpl. tauto. }
    unfold Demo.scores, getitem. rewrite Hcol.
    rewrite decide_True by (by rewrite length_fmap). by do 2 eexists.
  - intros _ _ X m ls. destruct (Demo.scores X) as [ds|]; [|discriminate].
    intros _. by exists ds.
Qed.

Local Ltac by_column name :=
  repeat match goal with
  | |- context [<[?k := _]> _ !! name] =>
      destruct (decide (k = name)) as [<-|?];
      [rewrite lookup_insert_eq | rewrite lookup_insert_ne by done]
  end.

Lemma three_rows_wf : wf_frame Demo.three_rows.
Proof.
  intros name col. unfold Demo.three_rows. simpl.
  by_column name; try (intros [= <-]); done.
Qed.

Lemma scored_rows_wf : wf_frame Demo.scored_rows.
Proof.
  intros name col. unfold Demo.scored_rows, Demo.three_rows. simpl.
  by_column name; try (intros [= <-]); done.
Qed.


(** ** The further properties on concrete runs *)

Lemma generated_table_shape_witness :
  ∃ df w', load_data_body Demo.numpy 3 (Demo.fresh_world 1000 4)
           = (Returned (Some df), w')
    ∧ nrows df = Z.to_nat 3 ∧ wf_frame df
    ∧ (∀ name, is_Some (columns df !! name) ↔ name ∈ base_columns)
    ∧ screen w' = screen (Demo.fresh_world 1000 4).
Proof.
  do 2 eexists.
  assert (load_data_body Demo.numpy 3 (Demo.fresh_world 1000 4)
          = (Returned (Some _), _)) as Hrun by (vm_compute; reflexivity).
  split; [exact Hrun|].
  exact (generated_table_shape Demo.numpy 3 _ _ _ Hrun).
Defined.

Lemma load_data_table_or_message_witness :
  cache_sound Demo.numpy (Demo.fresh_world 0 4)
  ∧ ∃ value w', load_data Demo.numpy 3 (Demo.fresh_world 0 4)
                = (Returned value, w')
      ∧ match value with
        | Some l =>
            heap (Demo.fresh_world 0 4) !! l = None
            ∧ (∃ df, heap w' = <[l := df]> (heap (Demo.fresh_world 0 4))
                     ∧ nrows df = Z.to_nat 3)
            ∧ screen w' = screen (Demo.fresh_world 0 4)
        | None =>
            heap w' = heap (Demo.fresh_world 0 4)
            ∧ ∃ e, screen w'
                   = (screen (Demo.fresh_world 0 4)
                      ++ [EvError "Error loading data: " e])%list
        end.
Proof.
  split; [exact (fresh_world_cache_sound 0 4)|].
  exact (load_data_table_or_message Demo.numpy 3 (Demo.fresh_world 0 4)
           (fresh_world_cache_sound 0 4)).
Defined.

Lemma load_data_copy_not_scored_witness :
  ∃ l1 w1,
    cache_sound Demo.numpy (Demo.fresh_world 0 4)
    ∧ load_data Demo.numpy 3 (Demo.fresh_world 0 4) = (Returned (Some l1), w1)
    ∧ ∃ df l2 w3,
        heap w1 !! l1 = Some df
        ∧ load_data Demo.numpy 3
            (detect_anomalies Demo.numpy Demo.sklearn l1 0.125 w1).2
          = (Returned (Some l2), w3)
        ∧ l2 ≠ l1
        ∧ heap w3 !! l2 = Some df
        ∧ columns df !! "Anomaly_Score" = None
        ∧ columns df !! "Confidence" = None
        ∧ heap w3 !! l1
          = heap (detect_anomalies Demo.numpy Demo.sklearn l1 0.125 w1).2 !! l1.
Proof.
  do 2 eexists.
  assert (load_data Demo.numpy 3 (Demo.fresh_world 0 4)
          = (Returned (Some _), _)) as Hload by (vm_compute; reflexivity).
  split; [exact (fresh_world_cache_sound 0 4)|]. split; [exact Hload|].
  exact (load_data_copy_not_scored Demo.numpy Demo.sklearn 3 0.125 _ _ _
           (fresh_world_cache_sound 0 4) Hload).
Defined.

Lemma scoring_keeps_base_columns_witness :
  SklearnShapes Demo.sklearn
  ∧ heap (Demo.world_with Demo.three_rows) !! 1%positive = Some Demo.three_rows
  ∧ ∃ df', heap (detect_anomalies Demo.numpy Demo.sklearn 1 0.125
                   (Demo.world_with Demo.three_rows)).2 !! 1%positive = Some df'
      ∧ nrows df' = nrows Demo.three_rows
      ∧ (∀ name, name ≠ "Anomaly_Score" → name ≠ "Confidence" →
           columns df' !! name = columns Demo.three_rows !! name)
      ∧ (wf_frame Demo.three_rows → wf_frame df').
Proof.
  assert (heap (Demo.world_with Demo.three_rows) !! 1%positive
          = Some Demo.three_rows) as Hobj by (vm_compute; reflexivity).
  split; [exact demo_sklearn_shapes|]. split; [exact Hobj|].
  exact (scoring_keeps_base_columns Demo.numpy Demo.sklearn 1 0.125 _ _
           demo_sklearn_shapes Hobj).
Defined.

Lemma scoring_reads_features_only_witness :
  let df1 := Demo.three_rows in
  let df2 := drop_column "Timestamp" Demo.three_rows in
  heap (Demo.world_with df1) !! 1%positive = Some df1
  ∧ heap (Demo.world_with df2) !! 1%positive = Some df2
  ∧ nrows df1 = nrows df2
  ∧ (∀ name, name ∈ features → columns df1 !! name = columns df2 !! name)
  ∧ cpu_count (Demo.world_with df1) = cpu_count (Demo.world_with df2)
  ∧ match detect_anomalies_try Demo.numpy Demo.sklearn 1 0.125 (Demo.world_with df1),
          detect_anomalies_try Demo.numpy Demo.sklearn 1 0.125 (Demo.world_with df2)
    with
    | (Returned _, w1'), (Returned _, w2') =>
        ∃ a b, heap w1' !! 1%positive = Some a ∧ heap w2' !! 1%positive = Some b
               ∧ is_Some (columns a !! "Anomaly_Score")
               ∧ columns a !! "Anomaly_Score" = columns b !! "Anomaly_Score"
               ∧ is_Some (columns a !! "Confidence")
               ∧ columns a !! "Confidence" = columns b !! "Confidence"
    | (Raised e1, _), (Raised e2, _) => e1 = e2
    | _, _ => False
    end.
Proof.
  cbv zeta.
  assert (heap (Demo.world_with Demo.three_rows) !! 1%positive
          = Some Demo.three_rows) as H1 by (vm_compute; reflexivity).
  assert (heap (Demo.world_with (drop_column "Timestamp" Demo.three_rows))
            !! 1%positive
          = Some (drop_column "Timestamp" Demo.three_rows)) as H2
    by (vm_compute; reflexivity).
  assert (∀ name, name ∈ features →
            columns Demo.three_rows !! name
            = columns (drop_column "Timestamp" Demo.three_rows) !! name) as H3.
  { intros name Hin. apply list_elem_of_In in Hin. simpl in Hin.
    destruct Hin as [<-|[<-|[<-|[]]]]; vm_compute; reflexivity. }
  split; [exact H1|]. split; [exact H2|]. split; [reflexivity|].
  split; [exact H3|]. split; [reflexivity|].
  exact (scoring_reads_features_only Demo.numpy Demo.sklearn 1 0.125 _ _ _ _
           H1 H2 eq_refl H3 eq_refl).
Defined.

Lemma anomalies_selection_witness :
  let score := [CInt 1; CInt (-1); CInt 1] in
  let anomalies := getitem_mask Demo.scored_rows (eq_minus_one <$> score) in
  wf_frame Demo.scored_rows
  ∧ columns Demo.scored_rows !! "Anomaly_Score" = Some score
  ∧ wf_frame anomalies
  ∧ nrows anomalies = length (List.filter eq_minus_one score)
  ∧ (nrows anomalies ≤ nrows Demo.scored_rows)%nat
  ∧ columns anomalies !! "Anomaly_Score" = Some (List.filter eq_minus_one score)
  ∧ (∀ name col, columns Demo.scored_rows !! name = Some col →
       ∃ col', columns anomalies !! name = Some col' ∧ sublist col' col)
  ∧ (∀ name, columns Demo.scored_rows !! name = None →
       columns anomalies !! name = None).
Proof.
  cbv zeta.
  assert (columns Demo.scored_rows !! "Anomaly_Score"
          = Some [CInt 1; CInt (-1); CInt 1]) as Hscore
    by (vm_compute; reflexivity).
  split; [exact scored_rows_wf|]. split; [exact Hscore|].
  exact (anomalies_selection Demo.scored_rows _ scored_rows_wf Hscore).
Defined.

Lemma anomalies_have_negative_confidence_witness :
  ∃ w', SklearnSign Demo.sklearn
    ∧ detect_anomalies_try Demo.numpy Demo.sklearn 1 0.125
        (Demo.world_with Demo.three_rows) = (Returned 1%positive, w')
    ∧ ∃ analyzed score ds,
        heap w' !! 1%positive = Some analyzed
        ∧ columns analyzed !! "Anomaly_Score" = Some score
        ∧ columns analyzed !! "Confidence" = Some (CFloat <$> ds)
        ∧ columns (getitem_mask analyzed (eq_minus_one <$> score)) !! "Confidence"
          = Some (CFloat <$> List.filter (λ d, (d <? 0)%float) ds)
        ∧ nrows (getitem_mask analyzed (eq_minus_one <$> score))
          = length (List.filter (λ d, (d <? 0)%float) ds).
Proof.
  eexists.
  assert (detect_anomalies_try Demo.numpy Demo.sklearn 1 0.125
            (Demo.world_with Demo.three_rows) = (Returned 1%positive, _)) as Htry
    by (vm_compute; reflexivity).
  split; [exact demo_sklearn_sign|]. split; [exact Htry|].
  exact (anomalies_have_negative_confidence Demo.numpy Demo.sklearn 1 1 0.125 _ _
           demo_sklearn_sign Htry).
Defined.



Lemma main_stops_on_unscored_table_witness :
  let w := Demo.world_with Demo.without_request_count in
  let e := KeyError ["Request_Count"] in
  fails_before_labels Demo.numpy Demo.sklearn 1
    (contamination_level Demo.default_controls) w e
  ∧ heap w !! 1%positive = Some Demo.without_request_count
  ∧ columns Demo.without_request_count !! "Anomaly_Score" = None
  ∧ main_with_data Demo.numpy Demo.sklearn Demo.default_controls 1 w
    = (Raised (KeyError ["Anomaly_Score"]),
       set_screen (screen w ++ [EvError "Error in anomaly detection: " e]) w).
Proof.
  cbv zeta.
  assert (fails_before_labels Demo.numpy Demo.sklearn 1
            (contamination_level Demo.default_controls)
            (Demo.world_with Demo.without_request_count)
            (KeyError ["Request_Count"])) as Hfail.
  { eapply fails_select; vm_compute; reflexivity. }
  assert (heap (Demo.world_with Demo.without_request_count) !! 1%positive
          = Some Demo.without_request_count) as Hobj by (vm_compute; reflexivity).
  assert (columns Demo.without_request_count !! "Anomaly_Score" = None) as Hnone
    by (vm_compute; reflexivity).
  split; [exact Hfail|]. split; [exact Hobj|]. split; [exact Hnone|].
  exact (main_stops_on_unscored_table Demo.numpy Demo.sklearn
           Demo.default_controls 1 _ _ _ Hfail Hobj Hnone).
Defined.

Lemma run_script_when_fit_fails_witness :
  let w := Demo.fresh_world 0 4 in
  let e := LibraryError "MemoryError" in
  cache_sound Demo.numpy w
  ∧ (∀ k X, fit_predict Demo.sklearn_cannot_fit
              (model_of (contamination_level Demo.default_controls)) k X
            = Raised e)
  ∧ ∃ w', run_script Demo.numpy Demo.sklearn_cannot_fit Demo.default_controls w
          = (Returned tt, w')
      ∧ ((∃ e0, screen w'
                = (screen w ++ main_header
                   ++ [EvError "Error loading data: " e0])%list)
         ∨ screen w'
           = (screen w ++ main_header
              ++ [EvError "Error in anomaly detection: " e;
                  EvError "An unexpected error occurred: "
                    (KeyError ["Anomaly_Score"])])%list).
Proof.
  cbv zeta.
  assert (∀ k X, fit_predict Demo.sklearn_cannot_fit
                   (model_of (contamination_level Demo.default_controls)) k X
                 = Raised (LibraryError "MemoryError")) as Hfit
    by reflexivity.
  split; [exact (fresh_world_cache_sound 0 4)|]. split; [exact Hfit|].
  exact (run_script_when_fit_fails Demo.numpy Demo.sklearn_cannot_fit
           Demo.default_controls _ _ (fresh_world_cache_sound 0 4) Hfit).
Defined.


Lemma run_script_renders_dashboard_witness :
  let w := Demo.fresh_world 0 4 in
  let ctl := Demo.default_controls in
  NumpyContract Demo.numpy ∧ SklearnShapes Demo.sklearn
  ∧ SklearnFits Demo.sklearn ∧ cache_sound Demo.numpy w
  ∧ 0 < sample_size ctl
  ∧ (0 <? contamination_level ctl)%float = true
  ∧ (contamination_level ctl <=? 0.5)%float = true
  ∧ ∃ l analyzed score w',
      run_script Demo.numpy Demo.sklearn ctl w = (Returned tt, w')
      ∧ heap w !! l = None
      ∧ heap w' !! l = Some analyzed
      ∧ nrows analyzed = Z.to_nat (sample_size ctl)
      ∧ columns analyzed !! "Anomaly_Score" = Some score
      ∧ screen w'
        = (screen w ++ main_header
           ++ dashboard analyzed (getitem_mask analyzed (eq_minus_one <$> score))
                (clock w))%list.
Proof.
  cbv zeta.
  assert (0 < sample_size Demo.default_controls) as Hpos by (simpl; lia).
  split; [exact demo_numpy_contract|]. split; [exact demo_sklearn_shapes|].
  split; [exact demo_sklearn_fits|].
  split; [exact (fresh_world_cache_sound 0 4)|]. split; [exact Hpos|].
  split; [reflexivity|]. split; [reflexivity|].
  exact (run_script_renders_dashboard Demo.numpy Demo.sklearn
           Demo.default_controls (Demo.fresh_world 0 4)
           demo_numpy_contract demo_sklearn_shapes demo_sklearn_fits
           (fresh_world_cache_sound 0 4) Hpos eq_refl eq_refl).
Defined.
